(** * rocSOLVER: the LU family (getrf, getrs, getri, gesv-outofplace)

    A shallow embedding of the host-side orchestration code of

      - library/src/lapack/roclapack_gesv_outofplace.hpp
      - library/src/lapack/roclapack_getrf.cpp
      - library/src/lapack/roclapack_getrs_strided_batched.cpp
      - library/src/lapack/roclapack_getri.cpp
      - library/src/lapack/roclapack_getri_outofplace_strided_batched.cpp

    Integers of the C++ code are [Z]; pointers are addresses ([Z], 0 is the
    null pointer); a host routine is a computation that may return a status
    early and that records, in issue order, what it asks of the rocBLAS handle
    and what it enqueues on the device stream.  Device memory is a map from
    addresses to cell contents; the numerical kernels, which live in other
    files of the library, are parameters whose write footprints are stated as
    hypotheses.  The logging macros (ROCSOLVER_ENTER, ROCSOLVER_ENTER_TOP) have
    no part in what is proved and are left out; all device work of a call
    goes to the one stream of the handle, so rocblas_get_stream is left out
    too and the order of issue is the order of execution. *)

From Stdlib Require Import ZArith List Bool Lia.
Import ListNotations.
Local Open Scope Z_scope.

(** ** rocBLAS vocabulary used by the sources *)

Inductive rocblas_status : Type :=
| rocblas_status_success
| rocblas_status_invalid_handle
| rocblas_status_not_implemented
| rocblas_status_invalid_pointer
| rocblas_status_invalid_size
| rocblas_status_memory_error
| rocblas_status_continue
| rocblas_status_size_increased
| rocblas_status_size_unchanged.

Definition rocblas_status_eqb (a b : rocblas_status) : bool :=
  match a, b with
  | rocblas_status_success, rocblas_status_success
  | rocblas_status_invalid_handle, rocblas_status_invalid_handle
  | rocblas_status_not_implemented, rocblas_status_not_implemented
  | rocblas_status_invalid_pointer, rocblas_status_invalid_pointer
  | rocblas_status_invalid_size, rocblas_status_invalid_size
  | rocblas_status_memory_error, rocblas_status_memory_error
  | rocblas_status_continue, rocblas_status_continue
  | rocblas_status_size_increased, rocblas_status_size_increased
  | rocblas_status_size_unchanged, rocblas_status_size_unchanged => true
  | _, _ => false
  end.

Inductive rocblas_operation : Type :=
| rocblas_operation_none
| rocblas_operation_transpose
| rocblas_operation_conjugate_transpose.

(** The four element types the templates are instantiated at. *)
Inductive elem_type : Type :=
| float | double | rocblas_float_complex | rocblas_double_complex.

(** A device or host address; [nullptr] is address 0. *)
Definition ptr : Type := Z.
Definition nullptr : ptr := 0.

(** The template parameter [U]: [T*] for the single and strided-batched
    layouts, [T* const*] for the batched layout.  For the latter [p] is the
    address of the array of per-instance pointers and [insts] its contents. *)
Inductive U : Type :=
| U_ptr (p : ptr)
| U_ptr_array (p : ptr) (insts : list ptr).

(** The C++ test [!p]. *)
Definition is_null (p : ptr) : bool := p =? nullptr.

Definition U_is_null (A : U) : bool :=
  match A with
  | U_ptr p => is_null p
  | U_ptr_array p _ => is_null p
  end.

(** The C++ conversion of an integer to [bool]. *)
Definition nonzero (z : Z) : bool := negb (z =? 0).

(** [rocblas_int] is a 32-bit signed integer; products are reduced to that
    range, two's complement. *)
Definition wrap_int (z : Z) : Z := (z + 2 ^ 31) mod 2 ^ 32 - 2 ^ 31.
Definition mul_int (a b : Z) : Z := wrap_int (a * b).

(** What the sources observe of a non-null handle: whether it is in
    device-memory-size-query mode.  The handle also owns the device memory
    its allocator draws from ([device_memory_capacity], in bytes); the
    allocator itself is a parameter below. *)
Record _rocblas_handle : Type := mk_handle {
  device_memory_capacity : Z;
  device_memory_size_query : bool
}.

(** [rocblas_handle] is a pointer to the handle structure; [None] is the null
    handle. *)
Definition rocblas_handle : Type := option _rocblas_handle.

Definition rocblas_is_device_memory_size_query (h : _rocblas_handle) : bool :=
  device_memory_size_query h.

(** ** Argument check of gesv-outofplace
    (roclapack_gesv_outofplace.hpp, rocsolver_gesv_outofplace_argCheck)

    The callers pass a handle they have already tested against null, hence the
    type of [handle]. *)

Definition rocsolver_gesv_outofplace_argCheck
    (handle : _rocblas_handle) (n nrhs lda ldb ldx : Z) (A B X : U)
    (ipiv info : ptr) (batch_count : Z) : rocblas_status :=
  (* 2. invalid size *)
  if (n <? 0) || (nrhs <? 0) || (lda <? n) || (ldb <? n) || (ldx <? n)
     || (batch_count <? 0)
  then rocblas_status_invalid_size
  (* skip pointer check if querying memory size *)
  else if rocblas_is_device_memory_size_query handle
  then rocblas_status_continue
  (* 3. invalid pointers *)
  else if (nonzero n && U_is_null A) || (nonzero n && is_null ipiv)
          || (nonzero (mul_int nrhs n) && U_is_null B)
          || (nonzero (mul_int nrhs n) && U_is_null X)
          || (nonzero batch_count && is_null info)
  then rocblas_status_invalid_pointer
  else rocblas_status_continue.

(** The two groups of conditions the check tests, as propositions. *)
Definition gesv_size_condition (n nrhs lda ldb ldx batch_count : Z) : Prop :=
  n < 0 \/ nrhs < 0 \/ lda < n \/ ldb < n \/ ldx < n \/ batch_count < 0.

Definition gesv_null_pointer_condition
    (n nrhs batch_count : Z) (A B X : U) (ipiv info : ptr) : Prop :=
  (n <> 0 /\ U_is_null A = true) \/ (n <> 0 /\ ipiv = nullptr)
  \/ (mul_int nrhs n <> 0 /\ U_is_null B = true)
  \/ (mul_int nrhs n <> 0 /\ U_is_null X = true)
  \/ (batch_count <> 0 /\ info = nullptr).

Definition gesv_sizes_valid (n nrhs lda ldb ldx batch_count : Z) : Prop :=
  0 <= n /\ 0 <= nrhs /\ n <= lda /\ n <= ldb /\ n <= ldx /\ 0 <= batch_count.

(** ** Workspace descriptors *)

(** The named scratch roles of the LU family, named after the [size_t]
    variables of the sources. *)
Inductive role : Type :=
| size_scalars | size_work1 | size_work2 | size_work3 | size_work4
| size_pivotval | size_pivotidx | size_iipiv | size_iinfo.

Definition role_eqb (a b : role) : bool :=
  match a, b with
  | size_scalars, size_scalars | size_work1, size_work1
  | size_work2, size_work2 | size_work3, size_work3
  | size_work4, size_work4 | size_pivotval, size_pivotval
  | size_pivotidx, size_pivotidx | size_iipiv, size_iipiv
  | size_iinfo, size_iinfo => true
  | _, _ => false
  end.

(** The roles in the order in which every routine passes them on. *)
Definition all_roles : list role :=
  [size_scalars; size_work1; size_work2; size_work3; size_work4;
   size_pivotval; size_pivotidx; size_iipiv; size_iinfo].

Definition is_work (r : role) : bool :=
  match r with
  | size_work1 | size_work2 | size_work3 | size_work4 => true
  | _ => false
  end.

(** The objects behind the ten output pointers of a planner of the getrf
    shape: nine [size_t] and one [bool]. *)
Record planner_out : Type := mk_out {
  size_of : role -> Z;
  optim_mem_of : bool
}.

(** [*size_r = v] *)
Definition store_size (r : role) (v : Z) (o : planner_out) : planner_out :=
  mk_out (fun r' => if role_eqb r r' then v else size_of o r') (optim_mem_of o).

(** [*optim_mem = b] *)
Definition store_optim (b : bool) (o : planner_out) : planner_out :=
  mk_out (size_of o) b.

(** What a planner of the getrf shape assigns: one size per role and a flag. *)
Record getrf_sizes : Type := mk_getrf_sizes {
  rf_size : role -> Z;
  rf_opt : bool
}.

(** What a planner of the getrs shape assigns: four sizes and a flag. *)
Record work_sizes : Type := mk_work_sizes {
  ws_work1 : Z; ws_work2 : Z; ws_work3 : Z; ws_work4 : Z;
  ws_opt : bool
}.

(** What the getri planner assigns. *)
Record getri_sizes : Type := mk_getri_sizes {
  ri_work1 : Z; ri_work2 : Z; ri_work3 : Z; ri_work4 : Z;
  ri_tmpcopy : Z; ri_workArr : Z;
  ri_opt : bool
}.

(** The planners of the sub-algorithms are declared in roclapack_getrf.hpp,
    roclapack_getrs.hpp, roclapack_getri.hpp and roclapack_getri_outofplace.hpp.
    They are functions of the shape that assign every one of their outputs.
    Arguments, in order: BATCHED, STRIDED, the element type, then the run-time
    arguments of the call; a leading dimension that a call site leaves to its
    default is [None]. *)
Class Planners : Type := {
  rocsolver_getrf_getMemorySize :
    bool -> bool -> elem_type -> Z -> Z -> bool -> Z -> option Z -> getrf_sizes;
  rocsolver_getrs_getMemorySize :
    bool -> bool -> elem_type -> rocblas_operation -> Z -> Z -> Z ->
    option Z -> option Z -> work_sizes;
  rocsolver_getri_getMemorySize :
    bool -> bool -> elem_type -> Z -> Z -> getri_sizes;
  rocsolver_getri_outofplace_getMemorySize :
    bool -> bool -> elem_type -> Z -> Z -> work_sizes
}.

(** A planner of the getrf shape called on the caller's nine size pointers. *)
Definition store_getrf_sizes (g : getrf_sizes) (o : planner_out) : planner_out :=
  fold_right (fun r acc => store_size r (rf_size g r) acc) o all_roles.

(** The size a planner of the getrs shape reports for a role (0 for the
    roles it does not have). *)
Definition work_size_of (s : work_sizes) (r : role) : Z :=
  match r with
  | size_work1 => ws_work1 s
  | size_work2 => ws_work2 s
  | size_work3 => ws_work3 s
  | size_work4 => ws_work4 s
  | _ => 0
  end.

(** rocsolver_gesv_outofplace_getMemorySize
    (roclapack_gesv_outofplace.hpp).  [out] is the prior content of the ten
    output locations; the result is their content on return. *)
Definition rocsolver_gesv_outofplace_getMemorySize `{Planners}
    (BATCHED STRIDED : bool) (T : elem_type) (n nrhs batch_count : Z)
    (out : planner_out) : planner_out :=
  (* if quick return, no workspace is needed *)
  if (n =? 0) || (nrhs =? 0) || (batch_count =? 0) then
    let out := store_size size_scalars 0 out in
    let out := store_size size_work1 0 out in
    let out := store_size size_work2 0 out in
    let out := store_size size_work3 0 out in
    let out := store_size size_work4 0 out in
    let out := store_size size_pivotval 0 out in
    let out := store_size size_pivotidx 0 out in
    let out := store_size size_iipiv 0 out in
    let out := store_size size_iinfo 0 out in
    store_optim true out
  else
    (* workspace required for calling GETRF *)
    let g := rocsolver_getrf_getMemorySize BATCHED STRIDED T n n true batch_count None in
    let out := store_getrf_sizes g out in
    let opt1 := rf_opt g in
    (* workspace required for calling GETRS *)
    let s := rocsolver_getrs_getMemorySize BATCHED STRIDED T
               rocblas_operation_none n nrhs batch_count None None in
    let opt2 := ws_opt s in
    let out := store_size size_work1 (Z.max (size_of out size_work1) (ws_work1 s)) out in
    let out := store_size size_work2 (Z.max (size_of out size_work2) (ws_work2 s)) out in
    let out := store_size size_work3 (Z.max (size_of out size_work3) (ws_work3 s)) out in
    let out := store_size size_work4 (Z.max (size_of out size_work4) (ws_work4 s)) out in
    store_optim (opt1 && opt2) out.

(** The composition rule of the specification: elementwise maximum on the
    four work buffers, conjunction of the flags. *)
Definition composite_of_getrf_getrs (g : getrf_sizes) (s : work_sizes)
    (o : planner_out) : Prop :=
  (forall r, is_work r = true -> size_of o r = Z.max (rf_size g r) (work_size_of s r))
  /\ optim_mem_of o = rf_opt g && ws_opt s.

(** ** Device work and host events *)

Record dim3 : Type := mk_dim3 { dim_x : Z; dim_y : Z; dim_z : Z }.

(** The arguments of a call of rocsolver_getrf_template, in source order
    (the handle apart). *)
Record getrf_call : Type := mk_getrf_call {
  rf_BATCHED : bool; rf_STRIDED : bool; rf_T : elem_type;
  rf_m : Z; rf_n : Z;
  rf_A : U; rf_shiftA : Z; rf_inca : Z; rf_lda : Z; rf_strideA : Z;
  rf_ipiv : ptr; rf_shiftP : Z; rf_strideP : Z;
  rf_info : ptr; rf_batch_count : Z;
  rf_scalars : ptr;
  rf_work1 : ptr; rf_work2 : ptr; rf_work3 : ptr; rf_work4 : ptr;
  rf_pivotval : ptr; rf_pivotidx : ptr; rf_iipiv : ptr; rf_iinfo : ptr;
  rf_optim_mem : bool; rf_pivot : bool
}.

(** The arguments of a call of rocsolver_getrs_template, in source order. *)
Record getrs_call : Type := mk_getrs_call {
  rs_BATCHED : bool; rs_STRIDED : bool; rs_T : elem_type;
  rs_trans : rocblas_operation; rs_n : Z; rs_nrhs : Z;
  rs_A : U; rs_shiftA : Z; rs_inca : Z; rs_lda : Z; rs_strideA : Z;
  rs_ipiv : ptr; rs_strideP : Z;
  rs_B : U; rs_shiftB : Z; rs_incb : Z; rs_ldb : Z; rs_strideB : Z;
  rs_batch_count : Z;
  rs_work1 : ptr; rs_work2 : ptr; rs_work3 : ptr; rs_work4 : ptr;
  rs_optim_mem : bool; rs_pivot : bool
}.

(** The arguments of a call of rocsolver_getri_template. *)
Record getri_call : Type := mk_getri_call {
  ri_BATCHED : bool; ri_STRIDED : bool; ri_T : elem_type;
  ri_n : Z;
  ri_A : U; ri_shiftA : Z; ri_lda : Z; ri_strideA : Z;
  ri_ipiv : ptr; ri_shiftP : Z; ri_strideP : Z;
  ri_info : ptr; ri_batch_count : Z;
  ri_w1 : ptr; ri_w2 : ptr; ri_w3 : ptr; ri_w4 : ptr;
  ri_tmpcopy_p : ptr; ri_workArr_p : ptr;
  ri_optim_mem : bool; ri_pivot : bool
}.

(** The arguments of a call of rocsolver_getri_outofplace_template. *)
Record getri_outofplace_call : Type := mk_getri_outofplace_call {
  ro_BATCHED : bool; ro_STRIDED : bool; ro_T : elem_type;
  ro_n : Z;
  ro_A : U; ro_shiftA : Z; ro_lda : Z; ro_strideA : Z;
  ro_ipiv : ptr; ro_shiftP : Z; ro_strideP : Z;
  ro_C : U; ro_shiftC : Z; ro_ldc : Z; ro_strideC : Z;
  ro_info : ptr; ro_batch_count : Z;
  ro_work1 : ptr; ro_work2 : ptr; ro_work3 : ptr; ro_work4 : ptr;
  ro_optim_mem : bool; ro_pivot : bool
}.

(** Work enqueued on the handle's stream.  The sub-templates are leaves here:
    their bodies are in other files of the library. *)
Inductive device_op : Type :=
| op_init_scalars (scalars : ptr)
| op_reset_info (grid threads : dim3) (info : ptr) (n val : Z)
| op_copy_mat (grid threads : dim3) (m n : Z)
    (A : U) (shiftA lda strideA : Z) (B : U) (shiftB ldb strideB : Z)
| op_getrf (c : getrf_call)
| op_getrs (c : getrs_call)
| op_getri (c : getri_call)
| op_getri_outofplace (c : getri_outofplace_call).

(** What a top-level routine does besides computing: it reports sizes to the
    handle, asks the handle's allocator for workspace, or issues device work. *)
Inductive host_event : Type :=
| ev_set_optimal_device_memory_size (sizes : list Z)
| ev_device_malloc (sizes : list Z) (granted : bool)
| ev_device (op : device_op).

(** ** Host routines: early return and an event log *)

(** A computation that logs events of type [E] and either has already
    returned a status ([inl]) or goes on with a value ([inr]). *)
Definition host (E A : Type) : Type := (rocblas_status + A) * list E.

Definition pure {E A} (a : A) : host E A := (inr a, []).

Definition bind {E A B} (m : host E A) (k : A -> host E B) : host E B :=
  match m with
  | (inl st, es) => (inl st, es)
  | (inr a, es) => let (r, es') := k a in (r, es ++ es')
  end.

(** [return st;] *)
Definition return_ {E A} (st : rocblas_status) : host E A := (inl st, []).

(** [if(c) return st;] *)
Definition return_if {E} (c : bool) (st : rocblas_status) : host E unit :=
  if c then return_ st else pure tt.

Definition emit {E} (e : E) : host E unit := (inr tt, [e]).

(** The body of a routine whose last statement is [return st;]. *)
Definition routine {E} (m : host E rocblas_status) : rocblas_status * list E :=
  match m with
  | (inl st, es) => (st, es)
  | (inr st, es) => (st, es)
  end.

Declare Scope host_scope.
Delimit Scope host_scope with host.
Notation "x <- m ;; k" := (bind m (fun x => k))
  (at level 61, m at next level, right associativity) : host_scope.
Notation "m ;; k" := (bind m (fun _ => k))
  (at level 61, right associativity) : host_scope.

(** ** What the top-level routines use of rocBLAS and of the rest of the
    library *)

(** The object [rocblas_device_malloc mem(handle, sizes...)]: [None] when the
    allocator could not provide the workspace ([!mem]), else the buffers. *)
Definition device_malloc_obj : Type := option (list ptr).

Definition mem_failed (mem : device_malloc_obj) : bool :=
  match mem with None => true | Some _ => false end.

(** [mem[k]] *)
Definition mem_at (mem : device_malloc_obj) (k : nat) : ptr :=
  match mem with None => nullptr | Some l => nth k l nullptr end.

(** rocBLAS (an external library): the status
    rocblas_set_optimal_device_memory_size returns, and the outcome of a
    workspace request.  The library's argument checks and the statuses its
    templates return to the host are declared in roclapack_getf2.hpp,
    roclapack_getrs.hpp, roclapack_getri.hpp, roclapack_getri_outofplace.hpp
    and roclapack_getrf.hpp. *)
Class HostEnv : Type := {
  rocblas_set_optimal_device_memory_size : _rocblas_handle -> list Z -> rocblas_status;
  rocblas_device_malloc : _rocblas_handle -> list Z -> device_malloc_obj;
  rocsolver_getf2_getrf_argCheck :
    _rocblas_handle -> Z -> Z -> Z -> U -> ptr -> ptr -> bool -> rocblas_status;
  rocsolver_getrs_argCheck :
    _rocblas_handle -> rocblas_operation -> Z -> Z -> Z -> Z -> U -> U -> ptr -> Z ->
    rocblas_status;
  rocsolver_getri_argCheck :
    _rocblas_handle -> Z -> Z -> U -> ptr -> ptr -> bool -> rocblas_status;
  rocsolver_getri_outofplace_argCheck :
    _rocblas_handle -> Z -> Z -> Z -> U -> U -> ptr -> ptr -> bool -> Z -> rocblas_status;
  rocsolver_getrf_template : _rocblas_handle -> getrf_call -> rocblas_status;
  rocsolver_getrs_template : _rocblas_handle -> getrs_call -> rocblas_status;
  rocsolver_getri_template : _rocblas_handle -> getri_call -> rocblas_status;
  rocsolver_getri_outofplace_template :
    _rocblas_handle -> getri_outofplace_call -> rocblas_status
}.

(** [if(!handle) return rocblas_status_invalid_handle;] *)
Definition require_handle (handle : rocblas_handle) : host host_event _rocblas_handle :=
  match handle with
  | None => return_ rocblas_status_invalid_handle
  | Some h => pure h
  end.

(** [if(st != rocblas_status_continue) return st;] *)
Definition return_unless_continue (st : rocblas_status) : host host_event unit :=
  return_if (negb (rocblas_status_eqb st rocblas_status_continue)) st.

(** [if(rocblas_is_device_memory_size_query(handle))
       return rocblas_set_optimal_device_memory_size(handle, sizes...);] *)
Definition return_sizes_if_query `{HostEnv} (h : _rocblas_handle) (sizes : list Z)
    : host host_event unit :=
  if rocblas_is_device_memory_size_query h
  then (inl (rocblas_set_optimal_device_memory_size h sizes),
        [ev_set_optimal_device_memory_size sizes])
  else pure tt.

(** [rocblas_device_malloc mem(handle, sizes...);] *)
Definition device_malloc `{HostEnv} (h : _rocblas_handle) (sizes : list Z)
    : host host_event device_malloc_obj :=
  let mem := rocblas_device_malloc h sizes in
  (inr mem, [ev_device_malloc sizes (negb (mem_failed mem))]).

(** Issue a device operation, or call a template that issues it. *)
Definition device (op : device_op) : host host_event unit := emit (ev_device op).

Local Open Scope host_scope.

(** ** roclapack_getrf.cpp *)

Definition rocsolver_getrf_impl `{HostEnv} `{Planners} (T : elem_type)
    (handle : rocblas_handle) (m n : Z) (A : U) (lda : Z) (ipiv info : ptr)
    (pivot : bool) : rocblas_status * list host_event :=
  routine (
    h <- require_handle handle ;;
    (* argument checking *)
    let st := rocsolver_getf2_getrf_argCheck h m n lda A ipiv info pivot in
    return_unless_continue st ;;
    (* working with unshifted arrays *)
    let shiftA := 0 in
    let shiftP := 0 in
    (* normal (non-batched non-strided) execution *)
    let inca := 1 in
    let strideA := 0 in
    let strideP := 0 in
    let batch_count := 1 in
    (* memory workspace sizes *)
    let g := rocsolver_getrf_getMemorySize false false T m n pivot batch_count (Some lda) in
    let sizes := map (rf_size g) all_roles in
    return_sizes_if_query h sizes ;;
    (* memory workspace allocation *)
    mem <- device_malloc h sizes ;;
    return_if (mem_failed mem) rocblas_status_memory_error ;;
    let scalars := mem_at mem 0 in
    let work1 := mem_at mem 1 in
    let work2 := mem_at mem 2 in
    let work3 := mem_at mem 3 in
    let work4 := mem_at mem 4 in
    let pivotval := mem_at mem 5 in
    let pivotidx := mem_at mem 6 in
    let iipiv := mem_at mem 7 in
    let iinfo := mem_at mem 8 in
    (if 0 <? rf_size g size_scalars then device (op_init_scalars scalars) else pure tt) ;;
    (* execution *)
    let c := mk_getrf_call false false T m n A shiftA inca lda strideA ipiv shiftP
               strideP info batch_count scalars work1 work2 work3 work4 pivotval
               pivotidx iipiv iinfo (rf_opt g) pivot in
    device (op_getrf c) ;;
    pure (rocsolver_getrf_template h c)).

(** The build option HAVE_ROCBLAS_64 is the first argument of the 64-bit
    entry points.  One definition stands for the four C wrappers of a family
    (s, d, c, z), which differ in the element type only. *)
Definition rocsolver_getrf `{HostEnv} `{Planners} (T : elem_type)
    (handle : rocblas_handle) (m n : Z) (A : U) (lda : Z) (ipiv info : ptr)
    : rocblas_status * list host_event :=
  rocsolver_getrf_impl T handle m n A lda ipiv info true.

Definition rocsolver_getrf_64 `{HostEnv} `{Planners} (HAVE_ROCBLAS_64 : bool)
    (T : elem_type) (handle : rocblas_handle) (m n : Z) (A : U) (lda : Z)
    (ipiv info : ptr) : rocblas_status * list host_event :=
  if HAVE_ROCBLAS_64
  then rocsolver_getrf_impl T handle m n A lda ipiv info true
  else (rocblas_status_not_implemented, []).

Definition rocsolver_getrf_npvt `{HostEnv} `{Planners} (T : elem_type)
    (handle : rocblas_handle) (m n : Z) (A : U) (lda : Z) (info : ptr)
    : rocblas_status * list host_event :=
  let ipiv := nullptr in
  rocsolver_getrf_impl T handle m n A lda ipiv info false.

Definition rocsolver_getrf_npvt_64 `{HostEnv} `{Planners} (HAVE_ROCBLAS_64 : bool)
    (T : elem_type) (handle : rocblas_handle) (m n : Z) (A : U) (lda : Z)
    (info : ptr) : rocblas_status * list host_event :=
  if HAVE_ROCBLAS_64
  then let ipiv := nullptr in
       rocsolver_getrf_impl T handle m n A lda ipiv info false
  else (rocblas_status_not_implemented, []).

(** ** roclapack_getrs_strided_batched.cpp *)

Definition rocsolver_getrs_strided_batched_impl `{HostEnv} `{Planners} (T : elem_type)
    (handle : rocblas_handle) (trans : rocblas_operation) (n nrhs : Z)
    (A : U) (lda strideA : Z) (ipiv : ptr) (strideP : Z)
    (B : U) (ldb strideB : Z) (batch_count : Z)
    : rocblas_status * list host_event :=
  routine (
    h <- require_handle handle ;;
    (* argument checking *)
    let st := rocsolver_getrs_argCheck h trans n nrhs lda ldb A B ipiv batch_count in
    return_unless_continue st ;;
    (* working with unshifted arrays *)
    let shiftA := 0 in
    let shiftB := 0 in
    (* strided batched execution *)
    let inca := 1 in
    let incb := 1 in
    (* memory workspace sizes *)
    let s := rocsolver_getrs_getMemorySize false true T trans n nrhs batch_count
               (Some lda) (Some ldb) in
    let sizes := [ws_work1 s; ws_work2 s; ws_work3 s; ws_work4 s] in
    return_sizes_if_query h sizes ;;
    (* memory workspace allocation *)
    mem <- device_malloc h sizes ;;
    return_if (mem_failed mem) rocblas_status_memory_error ;;
    let work1 := mem_at mem 0 in
    let work2 := mem_at mem 1 in
    let work3 := mem_at mem 2 in
    let work4 := mem_at mem 3 in
    (* execution *)
    let c := mk_getrs_call false true T trans n nrhs A shiftA inca lda strideA ipiv
               strideP B shiftB incb ldb strideB batch_count work1 work2 work3 work4
               (ws_opt s) true in
    device (op_getrs c) ;;
    pure (rocsolver_getrs_template h c)).

Definition rocsolver_getrs_strided_batched `{HostEnv} `{Planners} (T : elem_type)
    (handle : rocblas_handle) (trans : rocblas_operation) (n nrhs : Z)
    (A : U) (lda strideA : Z) (ipiv : ptr) (strideP : Z)
    (B : U) (ldb strideB : Z) (batch_count : Z)
    : rocblas_status * list host_event :=
  rocsolver_getrs_strided_batched_impl T handle trans n nrhs A lda strideA ipiv
    strideP B ldb strideB batch_count.

Definition rocsolver_getrs_strided_batched_64 `{HostEnv} `{Planners}
    (HAVE_ROCBLAS_64 : bool) (T : elem_type)
    (handle : rocblas_handle) (trans : rocblas_operation) (n nrhs : Z)
    (A : U) (lda strideA : Z) (ipiv : ptr) (strideP : Z)
    (B : U) (ldb strideB : Z) (batch_count : Z)
    : rocblas_status * list host_event :=
  if HAVE_ROCBLAS_64
  then rocsolver_getrs_strided_batched_impl T handle trans n nrhs A lda strideA ipiv
         strideP B ldb strideB batch_count
  else (rocblas_status_not_implemented, []).

(** ** roclapack_getri.cpp *)

Definition rocsolver_getri_impl `{HostEnv} `{Planners} (T : elem_type)
    (handle : rocblas_handle) (n : Z) (A : U) (lda : Z) (ipiv info : ptr)
    (pivot : bool) : rocblas_status * list host_event :=
  routine (
    h <- require_handle handle ;;
    (* argument checking *)
    let st := rocsolver_getri_argCheck h n lda A ipiv info pivot in
    return_unless_continue st ;;
    (* working with unshifted arrays *)
    let shiftA := 0 in
    let shiftP := 0 in
    (* normal (non-batched non-strided) execution *)
    let strideA := 0 in
    let strideP := 0 in
    let batch_count := 1 in
    (* memory workspace sizes *)
    let s := rocsolver_getri_getMemorySize false false T n batch_count in
    let sizes := [ri_work1 s; ri_work2 s; ri_work3 s; ri_work4 s;
                  ri_tmpcopy s; ri_workArr s] in
    return_sizes_if_query h sizes ;;
    (* memory workspace allocation *)
    mem <- device_malloc h sizes ;;
    return_if (mem_failed mem) rocblas_status_memory_error ;;
    let work1 := mem_at mem 0 in
    let work2 := mem_at mem 1 in
    let work3 := mem_at mem 2 in
    let work4 := mem_at mem 3 in
    let tmpcopy := mem_at mem 4 in
    let workArr := mem_at mem 5 in
    (* execution *)
    let c := mk_getri_call false false T n A shiftA lda strideA ipiv shiftP strideP
               info batch_count work1 work2 work3 work4 tmpcopy workArr
               (ri_opt s) pivot in
    device (op_getri c) ;;
    pure (rocsolver_getri_template h c)).

Definition rocsolver_getri `{HostEnv} `{Planners} (T : elem_type)
    (handle : rocblas_handle) (n : Z) (A : U) (lda : Z) (ipiv info : ptr)
    : rocblas_status * list host_event :=
  rocsolver_getri_impl T handle n A lda ipiv info true.

Definition rocsolver_getri_npvt `{HostEnv} `{Planners} (T : elem_type)
    (handle : rocblas_handle) (n : Z) (A : U) (lda : Z) (info : ptr)
    : rocblas_status * list host_event :=
  let ipiv := nullptr in
  rocsolver_getri_impl T handle n A lda ipiv info false.

(** ** roclapack_getri_outofplace_strided_batched.cpp *)

Definition rocsolver_getri_outofplace_strided_batched_impl `{HostEnv} `{Planners}
    (T : elem_type) (handle : rocblas_handle) (n : Z) (A : U) (lda strideA : Z)
    (ipiv : ptr) (strideP : Z) (C : U) (ldc strideC : Z) (info : ptr)
    (pivot : bool) (batch_count : Z) : rocblas_status * list host_event :=
  routine (
    h <- require_handle handle ;;
    (* argument checking *)
    let st := rocsolver_getri_outofplace_argCheck h n lda ldc A C ipiv info pivot
                batch_count in
    return_unless_continue st ;;
    (* working with unshifted arrays *)
    let shiftA := 0 in
    let shiftP := 0 in
    let shiftC := 0 in
    (* memory workspace sizes *)
    let s := rocsolver_getri_outofplace_getMemorySize false true T n batch_count in
    let sizes := [ws_work1 s; ws_work2 s; ws_work3 s; ws_work4 s] in
    return_sizes_if_query h sizes ;;
    (* memory workspace allocation *)
    mem <- device_malloc h sizes ;;
    return_if (mem_failed mem) rocblas_status_memory_error ;;
    let work1 := mem_at mem 0 in
    let work2 := mem_at mem 1 in
    let work3 := mem_at mem 2 in
    let work4 := mem_at mem 3 in
    (* Execution *)
    let c := mk_getri_outofplace_call false true T n A shiftA lda strideA ipiv shiftP
               strideP C shiftC ldc strideC info batch_count work1 work2 work3 work4
               (ws_opt s) pivot in
    device (op_getri_outofplace c) ;;
    pure (rocsolver_getri_outofplace_template h c)).

(** The entry points take [strideC] as a [rocblas_stride]; the parameter of
    the implementation is a [rocblas_int], so the value is narrowed. *)
Definition rocsolver_getri_outofplace_strided_batched `{HostEnv} `{Planners}
    (T : elem_type) (handle : rocblas_handle) (n : Z) (A : U) (lda strideA : Z)
    (ipiv : ptr) (strideP : Z) (C : U) (ldc strideC : Z) (info : ptr)
    (batch_count : Z) : rocblas_status * list host_event :=
  rocsolver_getri_outofplace_strided_batched_impl T handle n A lda strideA ipiv
    strideP C ldc (wrap_int strideC) info true batch_count.

Definition rocsolver_getri_npvt_outofplace_strided_batched `{HostEnv} `{Planners}
    (T : elem_type) (handle : rocblas_handle) (n : Z) (A : U) (lda strideA : Z)
    (C : U) (ldc strideC : Z) (info : ptr) (batch_count : Z)
    : rocblas_status * list host_event :=
  let ipiv := nullptr in
  rocsolver_getri_outofplace_strided_batched_impl T handle n A lda strideA ipiv
    0 C ldc (wrap_int strideC) info false batch_count.

(** ** Template of gesv-outofplace (roclapack_gesv_outofplace.hpp) *)

(** [BS1] is a launch-configuration constant of the library (a macro defined
    outside these sources). *)
Class LaunchConfig : Type := { BS1 : Z }.

Definition rocsolver_gesv_outofplace_template `{LaunchConfig}
    (BATCHED STRIDED : bool) (T : elem_type) (handle : _rocblas_handle)
    (n nrhs : Z) (A : U) (shiftA lda strideA : Z) (ipiv : ptr) (strideP : Z)
    (B : U) (shiftB ldb strideB : Z) (X : U) (shiftX ldx strideX : Z)
    (info : ptr) (batch_count : Z)
    (scalars work1 work2 work3 work4 pivotval pivotidx iipiv iinfo : ptr)
    (optim_mem : bool) : rocblas_status * list device_op :=
  routine (
    (* quick return if zero instances in batch *)
    return_if (batch_count =? 0) rocblas_status_success ;;
    let blocksReset := Z.quot (batch_count - 1) BS1 + 1 in
    let gridReset := mk_dim3 blocksReset 1 1 in
    let threads := mk_dim3 BS1 1 1 in
    (* info=0 (starting with a nonsingular matrix) *)
    emit (op_reset_info gridReset threads info batch_count 0) ;;
    (* quick return if A or B are empty *)
    return_if ((n =? 0) || (nrhs =? 0)) rocblas_status_success ;;
    (* constants in host memory *)
    let copyblocksx := Z.quot (n - 1) 32 + 1 in
    let copyblocksy := Z.quot (nrhs - 1) 32 + 1 in
    (* compute LU factorization of A *)
    emit (op_getrf (mk_getrf_call BATCHED STRIDED T n n A shiftA 1 lda strideA ipiv 0
                      strideP info batch_count scalars work1 work2 work3 work4
                      pivotval pivotidx iipiv iinfo optim_mem true)) ;;
    (* copy B to X *)
    emit (op_copy_mat (mk_dim3 copyblocksx copyblocksy batch_count) (mk_dim3 32 32 1)
            n nrhs B shiftB ldb strideB X shiftX ldx strideX) ;;
    (* solve AX = B *)
    emit (op_getrs (mk_getrs_call BATCHED STRIDED T rocblas_operation_none n nrhs
                      A shiftA 1 lda strideA ipiv strideP X shiftX 1 ldx strideX
                      batch_count work1 work2 work3 work4 optim_mem true)) ;;
    pure rocblas_status_success).

(** ** Device memory and the effect of device work *)

(** Device memory: the content of every cell.  Addresses count elements of
    the pointee type, as C++ pointer arithmetic does. *)
Definition devmem : Type := ptr -> Z.

Definition upd (m : devmem) (a : ptr) (v : Z) : devmem :=
  fun a' => if a' =? a then v else m a'.

(** Modelled from the spec: load_ptr_batch (a device helper of the library,
    not in these sources) gives the base address of instance [b] of a
    matrix handle: base pointer plus [b] strides plus the element offset for
    the strided layout, the [b]-th pointer of the array plus the offset for
    the pointer-array layout. *)
Definition load_ptr_batch (A : U) (b shift stride : Z) : ptr :=
  match A with
  | U_ptr p => p + b * stride + shift
  | U_ptr_array _ insts => nth (Z.to_nat b) insts nullptr + shift
  end.



(** The cells of an array of [n] elements. *)
Definition in_array (p : ptr) (n : Z) (a : ptr) : Prop := p <= a < p + n.

(** Global thread coordinates of a launch: every (x, y, z) below
    grid * block in each dimension. *)
Definition zrange (n : Z) : list Z := map Z.of_nat (seq 0 (Z.to_nat n)).

Definition launch_threads (grid block : dim3) : list (Z * Z * Z) :=
  list_prod (list_prod (zrange (dim_x grid * dim_x block))
                       (zrange (dim_y grid * dim_y block)))
            (zrange (dim_z grid * dim_z block)).

(** A kernel in which a thread stores at most one cell. *)
Record store_kernel : Type := mk_store_kernel {
  k_guard : Z * Z * Z -> bool;
  k_addr : Z * Z * Z -> ptr;
  k_value : Z * Z * Z -> devmem -> Z
}.

Definition thread_step (k : store_kernel) (m : devmem) (t : Z * Z * Z) : devmem :=
  if k_guard k t then upd m (k_addr k t) (k_value k t m) else m.

Definition run_kernel (k : store_kernel) (grid block : dim3) (m : devmem) : devmem :=
  fold_left (thread_step k) (launch_threads grid block) m.

(** Modelled from the spec: reset_info (a device helper of the library, not
    in these sources) is the elementwise pre-pass that resets info: thread
    [idx] of the launch stores [val] to [info[idx]] when [idx < n]. *)
Definition reset_info (info : ptr) (n val : Z) : store_kernel :=
  mk_store_kernel
    (fun '(idx, _, _) => idx <? n)
    (fun '(idx, _, _) => info + idx)
    (fun _ _ => val).

(** Modelled from the spec: copy_mat (a device helper of the library, not in
    these sources) copies a rectangular region: thread (i, j) of instance [b]
    stores A_b(i, j) to B_b(i, j) when [i < m] and [j < n]. *)
Definition copy_mat (m n : Z) (A : U) (shiftA lda strideA : Z)
    (B : U) (shiftB ldb strideB : Z) : store_kernel :=
  mk_store_kernel
    (fun '(i, j, b) => (i <? m) && (j <? n))
    (fun '(i, j, b) => load_ptr_batch B b shiftB strideB + i + j * ldb)
    (fun '(i, j, b) mem => mem (load_ptr_batch A b shiftA strideA + i + j * lda)).

(** The effect on device memory of the work whose code is in other files of
    the library, and the extent of the scratch buffer at each workspace
    pointer ([scratch p a]: cell [a] belongs to the buffer handed out at [p]). *)
Class Kernels : Type := {
  scratch : ptr -> ptr -> Prop;
  exec_init_scalars : ptr -> devmem -> devmem;
  exec_getrf : getrf_call -> devmem -> devmem;
  exec_getrs : getrs_call -> devmem -> devmem;
  exec_getri : getri_call -> devmem -> devmem;
  exec_getri_outofplace : getri_outofplace_call -> devmem -> devmem
}.

Definition exec_op `{Kernels} (op : device_op) (m : devmem) : devmem :=
  match op with
  | op_init_scalars p => exec_init_scalars p m
  | op_reset_info grid threads info n val =>
      run_kernel (reset_info info n val) grid threads m
  | op_copy_mat grid threads r c A shiftA lda strideA B shiftB ldb strideB =>
      run_kernel (copy_mat r c A shiftA lda strideA B shiftB ldb strideB) grid threads m
  | op_getrf c => exec_getrf c m
  | op_getrs c => exec_getrs c m
  | op_getri c => exec_getri c m
  | op_getri_outofplace c => exec_getri_outofplace c m
  end.

(** The stream runs the work in issue order. *)
Definition run_stream `{Kernels} (ops : list device_op) (m : devmem) : devmem :=
  fold_left (fun m op => exec_op op m) ops m.

(** The device work among the events of a top-level routine. *)
Fixpoint device_ops (es : list host_event) : list device_op :=
  match es with
  | [] => []
  | ev_device op :: es' => op :: device_ops es'
  | _ :: es' => device_ops es'
  end.




(** ** Observations on the events of a routine *)

(** The sizes a routine reported to the handle, if it did. *)
Fixpoint reported_sizes (es : list host_event) : option (list Z) :=
  match es with
  | [] => None
  | ev_set_optimal_device_memory_size sizes :: _ => Some sizes
  | _ :: es' => reported_sizes es'
  end.

(** The sizes a routine requested from the allocator, if it did. *)
Fixpoint requested_sizes (es : list host_event) : option (list Z) :=
  match es with
  | [] => None
  | ev_device_malloc sizes _ :: _ => Some sizes
  | _ :: es' => requested_sizes es'
  end.

(** The allocator refused a request of the routine. *)
Definition allocation_failed (es : list host_event) : Prop :=
  exists sizes, In (ev_device_malloc sizes false) es.

(** The sizes of the nine roles in the order of [all_roles]. *)
Definition getrf_size_list (g : getrf_sizes) : list Z := map (rf_size g) all_roles.

Definition work_size_list (s : work_sizes) : list Z :=
  [ws_work1 s; ws_work2 s; ws_work3 s; ws_work4 s].

Definition getri_size_list (s : getri_sizes) : list Z :=
  [ri_work1 s; ri_work2 s; ri_work3 s; ri_work4 s; ri_tmpcopy s; ri_workArr s].

(** A routine in query mode did nothing but report [sizes] to the handle. *)
Definition reports_only `{HostEnv} (h : _rocblas_handle) (sizes : list Z)
    (r : rocblas_status * list host_event) : Prop :=
  fst r = rocblas_set_optimal_device_memory_size h sizes
  /\ snd r = [ev_set_optimal_device_memory_size sizes]
  /\ requested_sizes (snd r) = None
  /\ device_ops (snd r) = [].



(** ** An instance of the parameters

    The examples below run the routines on this instance: planners that obey
    the quick-return rule of section 4.1 of the specification, a bump
    allocator, argument checks in the order of section 7, and device work
    that touches one cell of its footprint. *)

Definition sizeof (T : elem_type) : Z :=
  match T with
  | float => 4
  | double => 8
  | rocblas_float_complex => 8
  | rocblas_double_complex => 16
  end.

Definition no_work : work_sizes := mk_work_sizes 0 0 0 0 true.

Definition example_planners : Planners := {|
  rocsolver_getrf_getMemorySize := fun _ _ T m n pivot bc _ =>
    if (m =? 0) || (n =? 0) || (bc =? 0)
    then mk_getrf_sizes (fun _ => 0) true
    else mk_getrf_sizes
           (fun r => match r with
                     | size_scalars => 3 * sizeof T
                     | size_work1 => 2 * sizeof T * n * bc
                     | size_work2 => sizeof T * bc
                     | size_work3 => 0
                     | size_work4 => 0
                     | size_pivotval => sizeof T * bc
                     | size_pivotidx => 4 * bc
                     | size_iipiv => if pivot then 4 * m * bc else 0
                     | size_iinfo => 4 * bc
                     end) true;
  rocsolver_getrs_getMemorySize := fun _ _ T _ n nrhs bc _ _ =>
    if (n =? 0) || (nrhs =? 0) || (bc =? 0)
    then no_work
    else mk_work_sizes (sizeof T * nrhs * bc) (sizeof T * n * nrhs * bc) 0 0 true;
  rocsolver_getri_getMemorySize := fun _ _ T n bc =>
    if (n =? 0) || (bc =? 0)
    then mk_getri_sizes 0 0 0 0 0 0 true
    else mk_getri_sizes (sizeof T * n * bc) 0 0 0 (sizeof T * n * n * bc) 0 true;
  rocsolver_getri_outofplace_getMemorySize := fun _ _ T n bc =>
    if (n =? 0) || (bc =? 0)
    then no_work
    else mk_work_sizes (sizeof T * n * bc) (sizeof T * n * n * bc) 0 0 true
|}.

(** Consecutive buffers from address [base] on. *)
Fixpoint bump (base : ptr) (sizes : list Z) : list ptr :=
  match sizes with
  | [] => []
  | sz :: sizes' => base :: bump (base + sz) sizes'
  end.

Definition total (sizes : list Z) : Z := fold_right Z.add 0 sizes.

Definition example_env : HostEnv := {|
  rocblas_set_optimal_device_memory_size := fun h sizes =>
    if total sizes <=? device_memory_capacity h
    then rocblas_status_size_unchanged
    else rocblas_status_size_increased;
  rocblas_device_malloc := fun h sizes =>
    if total sizes <=? device_memory_capacity h
    then Some (bump 65536 sizes)
    else None;
  rocsolver_getf2_getrf_argCheck := fun h m n lda A ipiv info pivot =>
    if (m <? 0) || (n <? 0) || (lda <? m) then rocblas_status_invalid_size
    else if rocblas_is_device_memory_size_query h then rocblas_status_continue
    else if (nonzero (mul_int m n) && U_is_null A)
            || (nonzero (mul_int m n) && pivot && is_null ipiv)
            || is_null info
    then rocblas_status_invalid_pointer
    else rocblas_status_continue;
  rocsolver_getrs_argCheck := fun h trans n nrhs lda ldb A B ipiv bc =>
    if (n <? 0) || (nrhs <? 0) || (lda <? n) || (ldb <? n) || (bc <? 0)
    then rocblas_status_invalid_size
    else if rocblas_is_device_memory_size_query h then rocblas_status_continue
    else if (nonzero n && U_is_null A) || (nonzero n && is_null ipiv)
            || (nonzero (mul_int nrhs n) && U_is_null B)
    then rocblas_status_invalid_pointer
    else rocblas_status_continue;
  rocsolver_getri_argCheck := fun h n lda A ipiv info pivot =>
    if (n <? 0) || (lda <? n) then rocblas_status_invalid_size
    else if rocblas_is_device_memory_size_query h then rocblas_status_continue
    else if (nonzero n && U_is_null A) || (nonzero n && pivot && is_null ipiv)
            || is_null info
    then rocblas_status_invalid_pointer
    else rocblas_status_continue;
  rocsolver_getri_outofplace_argCheck := fun h n lda ldc A C ipiv info pivot bc =>
    if (n <? 0) || (lda <? n) || (ldc <? n) || (bc <? 0)
    then rocblas_status_invalid_size
    else if rocblas_is_device_memory_size_query h then rocblas_status_continue
    else if (nonzero n && U_is_null A) || (nonzero n && U_is_null C)
            || (nonzero n && pivot && is_null ipiv) || (nonzero bc && is_null info)
    then rocblas_status_invalid_pointer
    else rocblas_status_continue;
  rocsolver_getrf_template := fun _ _ => rocblas_status_success;
  rocsolver_getrs_template := fun _ _ => rocblas_status_success;
  rocsolver_getri_template := fun _ _ => rocblas_status_success;
  rocsolver_getri_outofplace_template := fun _ _ => rocblas_status_success
|}.

Definition example_config : LaunchConfig := {| BS1 := 256 |}.

(** Scratch buffers of 64 cells.  The factorizer records the pivot of the
    first row of the first instance; the solver overwrites the first entry
    of the first right-hand side with the first entry of the matrix. *)
Definition example_kernels : Kernels := {|
  scratch := fun p a => p <= a < p + 64;
  exec_init_scalars := fun p m => upd (upd (upd m p (-1)) (p + 1) 0) (p + 2) 1;
  exec_getrf := fun c m =>
    if (0 <? Z.min (rf_m c) (rf_n c)) && (0 <? rf_batch_count c)
    then upd m (rf_ipiv c + rf_shiftP c) 1
    else m;
  exec_getrs := fun c m =>
    if (0 <? rs_n c) && (0 <? rs_nrhs c) && (0 <? rs_batch_count c)
    then upd m (load_ptr_batch (rs_B c) 0 (rs_shiftB c) (rs_strideB c))
               (m (load_ptr_batch (rs_A c) 0 (rs_shiftA c) (rs_strideA c)))
    else m;
  exec_getri := fun _ m => m;
  exec_getri_outofplace := fun _ m => m
|}.

(** A handle in execution mode with 1 MiB of device memory, one in query
    mode, and one whose device memory is exhausted. *)
Definition example_handle : _rocblas_handle := mk_handle 1048576 false.
Definition example_query_handle : _rocblas_handle := mk_handle 1048576 true.

(** The memory in which every cell holds its own address. *)
Definition example_mem : devmem := fun a => a.

(** ** Predicates on events, operations and calls *)

(** The events start with a granted allocation request. *)
Definition starts_with_granted_allocation (es : list host_event) : Prop :=
  exists sizes rest, es = ev_device_malloc sizes true :: rest.

(** The invariant of the events of a routine that issued device work. *)
Definition device_work_after_allocation (es : list host_event) : Prop :=
  device_ops es <> [] ->
  starts_with_granted_allocation es
  /\ reported_sizes es = None
  /\ ~ allocation_failed es.

(** The pointers an operation hands to the device are not null. *)
Definition op_pointers_not_null (op : device_op) : Prop :=
  match op with
  | op_reset_info _ _ info _ _ => info <> nullptr
  | op_copy_mat _ _ _ _ src _ _ _ dst _ _ _ =>
      U_is_null src = false /\ U_is_null dst = false
  | op_getrf c =>
      U_is_null (rf_A c) = false /\ rf_ipiv c <> nullptr /\ rf_info c <> nullptr
  | op_getrs c =>
      U_is_null (rs_A c) = false /\ rs_ipiv c <> nullptr /\ U_is_null (rs_B c) = false
  | _ => True
  end.

(** A launch of [blocks] blocks of [bs] threads is the least that covers
    [n] elements. *)
Definition exact_cover (blocks bs n : Z) : Prop :=
  (blocks - 1) * bs < n <= blocks * bs.

(** The geometry of the launches among the operations. *)
Definition launch_geometry_exact `{LaunchConfig} (op : device_op) : Prop :=
  match op with
  | op_reset_info grid threads _ n _ =>
      threads = mk_dim3 BS1 1 1
      /\ exact_cover (dim_x grid) BS1 n /\ dim_y grid = 1 /\ dim_z grid = 1
  | op_copy_mat grid threads m n _ _ _ _ _ _ _ _ =>
      threads = mk_dim3 32 32 1
      /\ exact_cover (dim_x grid) 32 m /\ exact_cover (dim_y grid) 32 n
  | _ => True
  end.

(** A getrf call on one matrix: a batch of one, unshifted, with zero
    strides. *)
Definition single_getrf_call (c : getrf_call) (T : elem_type) (m n : Z) (A : U)
    (lda : Z) (ipiv info : ptr) (pivot : bool) : Prop :=
  rf_BATCHED c = false /\ rf_STRIDED c = false /\ rf_T c = T
  /\ rf_m c = m /\ rf_n c = n /\ rf_A c = A /\ rf_lda c = lda
  /\ rf_ipiv c = ipiv /\ rf_info c = info /\ rf_pivot c = pivot
  /\ rf_batch_count c = 1 /\ rf_shiftA c = 0 /\ rf_inca c = 1
  /\ rf_strideA c = 0 /\ rf_shiftP c = 0 /\ rf_strideP c = 0.

(** A getri call on one matrix: a batch of one, unshifted, with zero
    strides. *)
Definition single_getri_call (c : getri_call) (T : elem_type) (n : Z) (A : U)
    (lda : Z) (ipiv info : ptr) (pivot : bool) : Prop :=
  ri_BATCHED c = false /\ ri_STRIDED c = false /\ ri_T c = T
  /\ ri_n c = n /\ ri_A c = A /\ ri_lda c = lda
  /\ ri_ipiv c = ipiv /\ ri_info c = info /\ ri_pivot c = pivot
  /\ ri_batch_count c = 1 /\ ri_shiftA c = 0 /\ ri_strideA c = 0
  /\ ri_shiftP c = 0 /\ ri_strideP c = 0.

(** * Properties *)

Local Close Scope host_scope.

(** ** The workspace planner of gesv-outofplace *)

Lemma store_getrf_sizes_spec (g : getrf_sizes) (o : planner_out) (r : role) :
  size_of (store_getrf_sizes g o) r = rf_size g r.
Proof. destruct r; reflexivity. Qed.

Lemma store_getrf_sizes_optim (g : getrf_sizes) (o : planner_out) :
  optim_mem_of (store_getrf_sizes g o) = optim_mem_of o.
Proof. reflexivity. Qed.

Lemma quick_return_test (n nrhs bc : Z) :
  (n =? 0) || (nrhs =? 0) || (bc =? 0) = true <-> n = 0 \/ nrhs = 0 \/ bc = 0.
Proof.
  rewrite !orb_true_iff, !Z.eqb_eq. tauto.
Qed.

Lemma quick_return_test_false (n nrhs bc : Z) :
  n <> 0 -> nrhs <> 0 -> bc <> 0 -> (n =? 0) || (nrhs =? 0) || (bc =? 0) = false.
Proof.
  intros Hn Hr Hb.
  apply Z.eqb_neq in Hn, Hr, Hb. now rewrite Hn, Hr, Hb.
Qed.

(** The quick-return path assigns 0 to the nine sizes and sets the flag. *)
Lemma gesv_outofplace_getMemorySize_zero `{Planners}
    (BATCHED STRIDED : bool) (T : elem_type) (n nrhs batch_count : Z)
    (out : planner_out) :
  (n =? 0) || (nrhs =? 0) || (batch_count =? 0) = true ->
  (forall r, size_of (rocsolver_gesv_outofplace_getMemorySize
                        BATCHED STRIDED T n nrhs batch_count out) r = 0)
  /\ optim_mem_of (rocsolver_gesv_outofplace_getMemorySize
                     BATCHED STRIDED T n nrhs batch_count out) = true.
Proof.
  intros Hq. unfold rocsolver_gesv_outofplace_getMemorySize. rewrite Hq.
  split; [intros r; destruct r; reflexivity | reflexivity].
Qed.

(** C3. When n, nrhs or batch_count is zero, the gesv-outofplace planner
    reports 0 bytes for every role (scalars, the four work buffers,
    pivot-value, pivot-index, internal-pivot, internal-info) and sets the
    optimal-memory flag, whatever the output locations held before. *)
Theorem gesv_outofplace_getMemorySize_quick_return `{Planners}
    (BATCHED STRIDED : bool) (T : elem_type) (n nrhs batch_count : Z)
    (out : planner_out) :
  n = 0 \/ nrhs = 0 \/ batch_count = 0 ->
  (forall r, size_of (rocsolver_gesv_outofplace_getMemorySize
                        BATCHED STRIDED T n nrhs batch_count out) r = 0)
  /\ optim_mem_of (rocsolver_gesv_outofplace_getMemorySize
                     BATCHED STRIDED T n nrhs batch_count out) = true.
Proof.
  intros Hq. apply gesv_outofplace_getMemorySize_zero.
  destruct Hq as [-> | [-> | ->]]; cbn; rewrite ?orb_true_r; reflexivity.
Qed.

(** On the other path every role holds what getrf asked for, raised on the
    four work buffers to what getrs asked for. *)
Lemma gesv_outofplace_getMemorySize_general `{Planners}
    (BATCHED STRIDED : bool) (T : elem_type) (n nrhs batch_count : Z)
    (out : planner_out) (r : role) :
  n <> 0 -> nrhs <> 0 -> batch_count <> 0 ->
  size_of (rocsolver_gesv_outofplace_getMemorySize
             BATCHED STRIDED T n nrhs batch_count out) r
  = if is_work r
    then Z.max (rf_size (rocsolver_getrf_getMemorySize
                           BATCHED STRIDED T n n true batch_count None) r)
               (work_size_of (rocsolver_getrs_getMemorySize BATCHED STRIDED T
                                rocblas_operation_none n nrhs batch_count None None) r)
    else rf_size (rocsolver_getrf_getMemorySize
                    BATCHED STRIDED T n n true batch_count None) r.
Proof.
  intros Hn Hr Hb.
  unfold rocsolver_gesv_outofplace_getMemorySize.
  rewrite (quick_return_test_false _ _ _ Hn Hr Hb).
  destruct r; reflexivity.
Qed.

(** X19. On the general path of the gesv-outofplace planner, that is for n,
    nrhs and batch_count all non-zero, the sizes it reports for the four work
    buffers are the elementwise maximum of what getrf(n, n, pivot = true)
    and getrs(none, n, nrhs) ask for, and its optimal-memory flag is the
    conjunction of their flags. *)
Theorem gesv_outofplace_getMemorySize_max_and `{Planners}
    (BATCHED STRIDED : bool) (T : elem_type) (n nrhs batch_count : Z)
    (out : planner_out) :
  n <> 0 -> nrhs <> 0 -> batch_count <> 0 ->
  composite_of_getrf_getrs
    (rocsolver_getrf_getMemorySize BATCHED STRIDED T n n true batch_count None)
    (rocsolver_getrs_getMemorySize BATCHED STRIDED T rocblas_operation_none
       n nrhs batch_count None None)
    (rocsolver_gesv_outofplace_getMemorySize BATCHED STRIDED T n nrhs batch_count out).
Proof.
  intros Hn Hr Hb. split.
  - intros r Hw.
    rewrite (gesv_outofplace_getMemorySize_general _ _ _ _ _ _ _ r Hn Hr Hb).
    now rewrite Hw.
  - unfold rocsolver_gesv_outofplace_getMemorySize.
    rewrite (quick_return_test_false _ _ _ Hn Hr Hb). reflexivity.
Qed.

(** At a shape with nrhs = 0 the composition rule holds exactly when getrf
    itself needs no work buffer and can run in optimal-memory mode (sizes
    are unsigned, hence the two hypotheses). *)
Lemma gesv_outofplace_getMemorySize_zero_nrhs `{Planners}
    (BATCHED STRIDED : bool) (T : elem_type) (n batch_count : Z)
    (out : planner_out) :
  (forall r, 0 <= rf_size (rocsolver_getrf_getMemorySize
                             BATCHED STRIDED T n n true batch_count None) r) ->
  (forall r, 0 <= work_size_of (rocsolver_getrs_getMemorySize BATCHED STRIDED T
                                  rocblas_operation_none n 0 batch_count None None) r) ->
  composite_of_getrf_getrs
    (rocsolver_getrf_getMemorySize BATCHED STRIDED T n n true batch_count None)
    (rocsolver_getrs_getMemorySize BATCHED STRIDED T rocblas_operation_none
       n 0 batch_count None None)
    (rocsolver_gesv_outofplace_getMemorySize BATCHED STRIDED T n 0 batch_count out)
  <->
  (forall r, is_work r = true ->
     rf_size (rocsolver_getrf_getMemorySize
                BATCHED STRIDED T n n true batch_count None) r = 0
     /\ work_size_of (rocsolver_getrs_getMemorySize BATCHED STRIDED T
                        rocblas_operation_none n 0 batch_count None None) r = 0)
  /\ rf_opt (rocsolver_getrf_getMemorySize
               BATCHED STRIDED T n n true batch_count None) = true
  /\ ws_opt (rocsolver_getrs_getMemorySize BATCHED STRIDED T
               rocblas_operation_none n 0 batch_count None None) = true.
Proof.
  intros Hg Hs.
  destruct (gesv_outofplace_getMemorySize_zero
              BATCHED STRIDED T n 0 batch_count out) as [Hz Ho];
    [now rewrite orb_true_r|].
  unfold composite_of_getrf_getrs. rewrite Ho.
  split.
  - intros [Hmax Hand]. symmetry in Hand. apply andb_true_iff in Hand.
    split; [|exact Hand].
    intros r Hw. specialize (Hmax r Hw). rewrite Hz in Hmax.
    specialize (Hg r). specialize (Hs r). lia.
  - intros [Hzero [H1 H2]]. split.
    + intros r Hw. rewrite Hz. destruct (Hzero r Hw) as [-> ->]. reflexivity.
    + now rewrite H1, H2.
Qed.

(** More generally, at any shape of the quick return (n, nrhs or
    batch_count zero) the composition rule holds exactly when neither
    sub-planner asks for a work buffer at that shape and both can run in
    optimal-memory mode.  Whether it holds there is thus decided by the
    planners of getrf and getrs alone. *)
Lemma gesv_outofplace_getMemorySize_quick_return_rule `{Planners}
    (BATCHED STRIDED : bool) (T : elem_type) (n nrhs batch_count : Z)
    (out : planner_out) :
  n = 0 \/ nrhs = 0 \/ batch_count = 0 ->
  (forall r, 0 <= rf_size (rocsolver_getrf_getMemorySize
                             BATCHED STRIDED T n n true batch_count None) r) ->
  (forall r, 0 <= work_size_of (rocsolver_getrs_getMemorySize BATCHED STRIDED T
                                  rocblas_operation_none n nrhs batch_count None None)
                   r) ->
  composite_of_getrf_getrs
    (rocsolver_getrf_getMemorySize BATCHED STRIDED T n n true batch_count None)
    (rocsolver_getrs_getMemorySize BATCHED STRIDED T rocblas_operation_none
       n nrhs batch_count None None)
    (rocsolver_gesv_outofplace_getMemorySize BATCHED STRIDED T n nrhs batch_count out)
  <->
  (forall r, is_work r = true ->
     rf_size (rocsolver_getrf_getMemorySize
                BATCHED STRIDED T n n true batch_count None) r = 0
     /\ work_size_of (rocsolver_getrs_getMemorySize BATCHED STRIDED T
                        rocblas_operation_none n nrhs batch_count None None) r = 0)
  /\ rf_opt (rocsolver_getrf_getMemorySize
               BATCHED STRIDED T n n true batch_count None) = true
  /\ ws_opt (rocsolver_getrs_getMemorySize BATCHED STRIDED T
               rocblas_operation_none n nrhs batch_count None None) = true.
Proof.
  intros Hq Hg Hs.
  destruct (gesv_outofplace_getMemorySize_zero
              BATCHED STRIDED T n nrhs batch_count out) as [Hz Ho];
    [now apply quick_return_test|].
  unfold composite_of_getrf_getrs. rewrite Ho.
  split.
  - intros [Hmax Hand]. symmetry in Hand. apply andb_true_iff in Hand.
    split; [|exact Hand].
    intros r Hw. specialize (Hmax r Hw). rewrite Hz in Hmax.
    specialize (Hg r). specialize (Hs r). lia.
  - intros [Hzero [H1 H2]]. split.
    + intros r Hw. rewrite Hz. destruct (Hzero r Hw) as [-> ->]. reflexivity.
    + now rewrite H1, H2.
Qed.

(** The content of the ten output locations on return does not depend on
    what they held before. *)
Lemma gesv_outofplace_getMemorySize_overwrites `{Planners}
    (BATCHED STRIDED : bool) (T : elem_type) (n nrhs batch_count : Z)
    (out1 out2 : planner_out) :
  (forall r, size_of (rocsolver_gesv_outofplace_getMemorySize
                        BATCHED STRIDED T n nrhs batch_count out1) r
             = size_of (rocsolver_gesv_outofplace_getMemorySize
                          BATCHED STRIDED T n nrhs batch_count out2) r)
  /\ optim_mem_of (rocsolver_gesv_outofplace_getMemorySize
                     BATCHED STRIDED T n nrhs batch_count out1)
     = optim_mem_of (rocsolver_gesv_outofplace_getMemorySize
                       BATCHED STRIDED T n nrhs batch_count out2).
Proof.
  unfold rocsolver_gesv_outofplace_getMemorySize.
  destruct ((n =? 0) || (nrhs =? 0) || (batch_count =? 0)).
  - split; [intros r; destruct r; reflexivity | reflexivity].
  - split; [intros r; destruct r; reflexivity | reflexivity].
Qed.

(** ** The argument check of gesv-outofplace *)

Lemma gesv_size_test (n nrhs lda ldb ldx bc : Z) :
  (n <? 0) || (nrhs <? 0) || (lda <? n) || (ldb <? n) || (ldx <? n) || (bc <? 0) = true
  <-> gesv_size_condition n nrhs lda ldb ldx bc.
Proof.
  unfold gesv_size_condition. rewrite !orb_true_iff, !Z.ltb_lt. tauto.
Qed.

Lemma gesv_size_test_false (n nrhs lda ldb ldx bc : Z) :
  gesv_sizes_valid n nrhs lda ldb ldx bc ->
  (n <? 0) || (nrhs <? 0) || (lda <? n) || (ldb <? n) || (ldx <? n) || (bc <? 0) = false.
Proof.
  unfold gesv_sizes_valid. intros H.
  apply not_true_is_false. rewrite gesv_size_test.
  unfold gesv_size_condition. lia.
Qed.

(** C4. When a size condition and a null-pointer condition hold together,
    the argument check of gesv-outofplace answers invalid_size: the size
    test comes first, whatever the mode of the handle. *)
Theorem gesv_outofplace_argCheck_size_first
    (handle : _rocblas_handle) (n nrhs lda ldb ldx : Z) (A B X : U)
    (ipiv info : ptr) (batch_count : Z) :
  gesv_size_condition n nrhs lda ldb ldx batch_count ->
  gesv_null_pointer_condition n nrhs batch_count A B X ipiv info ->
  rocsolver_gesv_outofplace_argCheck handle n nrhs lda ldb ldx A B X ipiv info
    batch_count = rocblas_status_invalid_size
  /\ rocsolver_gesv_outofplace_argCheck handle n nrhs lda ldb ldx A B X ipiv info
       batch_count <> rocblas_status_invalid_pointer.
Proof.
  intros Hs _. apply gesv_size_test in Hs.
  unfold rocsolver_gesv_outofplace_argCheck. rewrite Hs.
  split; [reflexivity | discriminate].
Qed.

(** C10 (amended). Outside memory-size-query mode, with valid sizes,
    batch_count > 0 and a null info pointer, the argument check answers
    invalid_pointer, also when n = 0 and nrhs = 0. *)
Theorem gesv_outofplace_argCheck_null_info
    (handle : _rocblas_handle) (n nrhs lda ldb ldx : Z) (A B X : U)
    (ipiv info : ptr) (batch_count : Z) :
  rocblas_is_device_memory_size_query handle = false ->
  gesv_sizes_valid n nrhs lda ldb ldx batch_count ->
  0 < batch_count ->
  info = nullptr ->
  rocsolver_gesv_outofplace_argCheck handle n nrhs lda ldb ldx A B X ipiv info
    batch_count = rocblas_status_invalid_pointer.
Proof.
  intros Hq Hv Hb ->.
  unfold rocsolver_gesv_outofplace_argCheck.
  rewrite (gesv_size_test_false _ _ _ _ _ _ Hv), Hq.
  assert (Hnz : nonzero batch_count && is_null nullptr = true).
  { unfold nonzero, is_null. rewrite Z.eqb_refl.
    destruct (Z.eqb_spec batch_count 0); [lia | reflexivity]. }
  rewrite Hnz, !orb_true_r. reflexivity.
Qed.

(** ** The top-level routines *)

Ltac host_unfold :=
  unfold routine, bind, require_handle, return_unless_continue, return_if,
    return_sizes_if_query, device_malloc, device, emit, pure, return_ in *.

(** Case analysis along the early returns of a top-level routine. *)
Ltac host_cases :=
  host_unfold;
  repeat match goal with
         | |- context [match ?h with Some _ => _ | None => _ end] =>
             destruct h eqn:?; cbn
         | |- context [if ?c then _ else _] => destruct c eqn:?; cbn
         end.

Ltac not_in_events H :=
  cbn in H; repeat (destruct H as [H | H]; try discriminate H); try contradiction.

(** In memory-size-query mode a routine whose argument check lets the call
    through reports the planner's sizes and does nothing else. *)
Lemma getrf_impl_query `{HostEnv} `{Planners} (T : elem_type) (h : _rocblas_handle)
    (m n : Z) (A : U) (lda : Z) (ipiv info : ptr) (pivot : bool) :
  rocblas_is_device_memory_size_query h = true ->
  rocsolver_getf2_getrf_argCheck h m n lda A ipiv info pivot = rocblas_status_continue ->
  rocsolver_getrf_impl T (Some h) m n A lda ipiv info pivot
  = (rocblas_set_optimal_device_memory_size h
       (getrf_size_list (rocsolver_getrf_getMemorySize false false T m n pivot 1 (Some lda))),
     [ev_set_optimal_device_memory_size
        (getrf_size_list (rocsolver_getrf_getMemorySize false false T m n pivot 1 (Some lda)))]).
Proof.
  intros Hq Hc. unfold rocsolver_getrf_impl. host_unfold.
  rewrite Hc. cbn. rewrite Hq. reflexivity.
Qed.

Lemma getrs_strided_batched_impl_query `{HostEnv} `{Planners} (T : elem_type)
    (h : _rocblas_handle) (trans : rocblas_operation) (n nrhs : Z)
    (A : U) (lda strideA : Z) (ipiv : ptr) (strideP : Z)
    (B : U) (ldb strideB : Z) (batch_count : Z) :
  rocblas_is_device_memory_size_query h = true ->
  rocsolver_getrs_argCheck h trans n nrhs lda ldb A B ipiv batch_count
  = rocblas_status_continue ->
  rocsolver_getrs_strided_batched_impl T (Some h) trans n nrhs A lda strideA ipiv
    strideP B ldb strideB batch_count
  = (rocblas_set_optimal_device_memory_size h
       (work_size_list (rocsolver_getrs_getMemorySize false true T trans n nrhs
                          batch_count (Some lda) (Some ldb))),
     [ev_set_optimal_device_memory_size
        (work_size_list (rocsolver_getrs_getMemorySize false true T trans n nrhs
                           batch_count (Some lda) (Some ldb)))]).
Proof.
  intros Hq Hc. unfold rocsolver_getrs_strided_batched_impl. host_unfold.
  rewrite Hc. cbn. rewrite Hq. reflexivity.
Qed.

Lemma getri_impl_query `{HostEnv} `{Planners} (T : elem_type) (h : _rocblas_handle)
    (n : Z) (A : U) (lda : Z) (ipiv info : ptr) (pivot : bool) :
  rocblas_is_device_memory_size_query h = true ->
  rocsolver_getri_argCheck h n lda A ipiv info pivot = rocblas_status_continue ->
  rocsolver_getri_impl T (Some h) n A lda ipiv info pivot
  = (rocblas_set_optimal_device_memory_size h
       (getri_size_list (rocsolver_getri_getMemorySize false false T n 1)),
     [ev_set_optimal_device_memory_size
        (getri_size_list (rocsolver_getri_getMemorySize false false T n 1))]).
Proof.
  intros Hq Hc. unfold rocsolver_getri_impl. host_unfold.
  rewrite Hc. cbn. rewrite Hq. reflexivity.
Qed.

Lemma getri_outofplace_strided_batched_impl_query `{HostEnv} `{Planners}
    (T : elem_type) (h : _rocblas_handle) (n : Z) (A : U) (lda strideA : Z)
    (ipiv : ptr) (strideP : Z) (C : U) (ldc strideC : Z) (info : ptr)
    (pivot : bool) (batch_count : Z) :
  rocblas_is_device_memory_size_query h = true ->
  rocsolver_getri_outofplace_argCheck h n lda ldc A C ipiv info pivot batch_count
  = rocblas_status_continue ->
  rocsolver_getri_outofplace_strided_batched_impl T (Some h) n A lda strideA ipiv
    strideP C ldc strideC info pivot batch_count
  = (rocblas_set_optimal_device_memory_size h
       (work_size_list (rocsolver_getri_outofplace_getMemorySize false true T n batch_count)),
     [ev_set_optimal_device_memory_size
        (work_size_list (rocsolver_getri_outofplace_getMemorySize false true T n
                           batch_count))]).
Proof.
  intros Hq Hc. unfold rocsolver_getri_outofplace_strided_batched_impl. host_unfold.
  rewrite Hc. cbn. rewrite Hq. reflexivity.
Qed.

(** In query mode with valid sizes the argument check of gesv-outofplace
    lets the call through without looking at a pointer. *)
Lemma gesv_outofplace_argCheck_query
    (h : _rocblas_handle) (n nrhs lda ldb ldx : Z) (A B X : U)
    (ipiv info : ptr) (batch_count : Z) :
  rocblas_is_device_memory_size_query h = true ->
  gesv_sizes_valid n nrhs lda ldb ldx batch_count ->
  rocsolver_gesv_outofplace_argCheck h n nrhs lda ldb ldx A B X ipiv info batch_count
  = rocblas_status_continue.
Proof.
  intros Hq Hv. unfold rocsolver_gesv_outofplace_argCheck.
  now rewrite (gesv_size_test_false _ _ _ _ _ _ Hv), Hq.
Qed.

(** C5. A call made while the handle is in memory-size-query mode: with
    valid sizes the argument check of gesv-outofplace lets it through
    whatever the pointers A, B, X, ipiv and info are (null included); and a
    top-level routine whose argument check lets the call through returns what
    reporting the planner's sizes to the handle returns, its only event being
    that report: no allocation request, no device work. *)
Theorem size_query_reports_sizes_only `{HostEnv} `{Planners} (h : _rocblas_handle) :
  rocblas_is_device_memory_size_query h = true ->
  (forall n nrhs lda ldb ldx A B X ipiv info batch_count,
      gesv_sizes_valid n nrhs lda ldb ldx batch_count ->
      rocsolver_gesv_outofplace_argCheck h n nrhs lda ldb ldx A B X ipiv info
        batch_count = rocblas_status_continue)
  /\
  (forall T m n A lda ipiv info pivot,
      rocsolver_getf2_getrf_argCheck h m n lda A ipiv info pivot
      = rocblas_status_continue ->
      reports_only h
        (getrf_size_list
           (rocsolver_getrf_getMemorySize false false T m n pivot 1 (Some lda)))
        (rocsolver_getrf_impl T (Some h) m n A lda ipiv info pivot))
  /\
  (forall T trans n nrhs A lda strideA ipiv strideP B ldb strideB batch_count,
      rocsolver_getrs_argCheck h trans n nrhs lda ldb A B ipiv batch_count
      = rocblas_status_continue ->
      reports_only h
        (work_size_list
           (rocsolver_getrs_getMemorySize false true T trans n nrhs batch_count
              (Some lda) (Some ldb)))
        (rocsolver_getrs_strided_batched_impl T (Some h) trans n nrhs A lda strideA
           ipiv strideP B ldb strideB batch_count))
  /\
  (forall T n A lda ipiv info pivot,
      rocsolver_getri_argCheck h n lda A ipiv info pivot = rocblas_status_continue ->
      reports_only h
        (getri_size_list (rocsolver_getri_getMemorySize false false T n 1))
        (rocsolver_getri_impl T (Some h) n A lda ipiv info pivot))
  /\
  (forall T n A lda strideA ipiv strideP C ldc strideC info pivot batch_count,
      rocsolver_getri_outofplace_argCheck h n lda ldc A C ipiv info pivot batch_count
      = rocblas_status_continue ->
      reports_only h
        (work_size_list
           (rocsolver_getri_outofplace_getMemorySize false true T n batch_count))
        (rocsolver_getri_outofplace_strided_batched_impl T (Some h) n A lda strideA
           ipiv strideP C ldc strideC info pivot batch_count)).
Proof.
  intros Hq. unfold reports_only.
  split; [|split; [|split; [|split]]]; intros.
  - now apply gesv_outofplace_argCheck_query.
  - rewrite getrf_impl_query by assumption. repeat split.
  - rewrite getrs_strided_batched_impl_query by assumption. repeat split.
  - rewrite getri_impl_query by assumption. repeat split.
  - rewrite getri_outofplace_strided_batched_impl_query by assumption. repeat split.
Qed.

(** C7. The planner gives the same answer in a memory-size query and just
    before execution: the gesv-outofplace planner takes the shape only and
    assigns all its ten outputs, whatever they held before; and the sizes
    rocsolver_getrf_impl reports in query mode are the sizes it requests from
    the allocator in execution mode, for the same arguments. *)
Theorem planner_same_sizes_in_query_and_execution `{HostEnv} `{Planners} :
  (forall BATCHED STRIDED T n nrhs batch_count out1 out2,
      (forall r, size_of (rocsolver_gesv_outofplace_getMemorySize
                            BATCHED STRIDED T n nrhs batch_count out1) r
                 = size_of (rocsolver_gesv_outofplace_getMemorySize
                              BATCHED STRIDED T n nrhs batch_count out2) r)
      /\ optim_mem_of (rocsolver_gesv_outofplace_getMemorySize
                         BATCHED STRIDED T n nrhs batch_count out1)
         = optim_mem_of (rocsolver_gesv_outofplace_getMemorySize
                           BATCHED STRIDED T n nrhs batch_count out2))
  /\
  (forall T hq he m n A lda ipiv info pivot,
      rocblas_is_device_memory_size_query hq = true ->
      rocblas_is_device_memory_size_query he = false ->
      rocsolver_getf2_getrf_argCheck hq m n lda A ipiv info pivot
      = rocblas_status_continue ->
      rocsolver_getf2_getrf_argCheck he m n lda A ipiv info pivot
      = rocblas_status_continue ->
      exists sizes,
        reported_sizes (snd (rocsolver_getrf_impl T (Some hq) m n A lda ipiv info pivot))
        = Some sizes
        /\ requested_sizes (snd (rocsolver_getrf_impl T (Some he) m n A lda ipiv info pivot))
           = Some sizes).
Proof.
  split.
  - intros. apply gesv_outofplace_getMemorySize_overwrites.
  - intros T hq he m n A lda ipiv info pivot Hq He Hcq Hce.
    exists (getrf_size_list
              (rocsolver_getrf_getMemorySize false false T m n pivot 1 (Some lda))).
    split.
    + now rewrite (getrf_impl_query T hq m n A lda ipiv info pivot Hq Hcq).
    + unfold rocsolver_getrf_impl. host_unfold. rewrite Hce. cbn. rewrite He. cbn.
      destruct (rocblas_device_malloc he _); cbn; [|reflexivity].
      destruct (0 <? _); reflexivity.
Qed.


(** C9 (amended). Every routine of the sources, called with a null handle,
    returns invalid_handle and has done nothing before: whatever the argument
    check and the planner would answer, no event has happened.  So do the C
    entry points that call them: the 32-bit ones, and the 64-bit ones of a
    build with HAVE_ROCBLAS_64.  In a build without it the 64-bit entry
    points return not_implemented, whatever the handle. *)
Theorem null_handle_is_invalid_handle `{HostEnv} `{Planners} :
  (forall T m n A lda ipiv info pivot,
      rocsolver_getrf_impl T None m n A lda ipiv info pivot
      = (rocblas_status_invalid_handle, []))
  /\ (forall T trans n nrhs A lda strideA ipiv strideP B ldb strideB batch_count,
         rocsolver_getrs_strided_batched_impl T None trans n nrhs A lda strideA ipiv
           strideP B ldb strideB batch_count
         = (rocblas_status_invalid_handle, []))
  /\ (forall T n A lda ipiv info pivot,
         rocsolver_getri_impl T None n A lda ipiv info pivot
         = (rocblas_status_invalid_handle, []))
  /\ (forall T n A lda strideA ipiv strideP C ldc strideC info pivot batch_count,
         rocsolver_getri_outofplace_strided_batched_impl T None n A lda strideA ipiv
           strideP C ldc strideC info pivot batch_count
         = (rocblas_status_invalid_handle, []))
  /\ (forall T m n A lda ipiv info,
         rocsolver_getrf T None m n A lda ipiv info
         = (rocblas_status_invalid_handle, [])
         /\ rocsolver_getrf_npvt T None m n A lda info
            = (rocblas_status_invalid_handle, [])
         /\ rocsolver_getrf_64 true T None m n A lda ipiv info
            = (rocblas_status_invalid_handle, [])
         /\ rocsolver_getrf_npvt_64 true T None m n A lda info
            = (rocblas_status_invalid_handle, []))
  /\ (forall T trans n nrhs A lda strideA ipiv strideP B ldb strideB batch_count,
         rocsolver_getrs_strided_batched T None trans n nrhs A lda strideA ipiv
           strideP B ldb strideB batch_count
         = (rocblas_status_invalid_handle, [])
         /\ rocsolver_getrs_strided_batched_64 true T None trans n nrhs A lda strideA
              ipiv strideP B ldb strideB batch_count
            = (rocblas_status_invalid_handle, []))
  /\ (forall T n A lda ipiv info,
         rocsolver_getri T None n A lda ipiv info
         = (rocblas_status_invalid_handle, [])
         /\ rocsolver_getri_npvt T None n A lda info
            = (rocblas_status_invalid_handle, []))
  /\ (forall T n A lda strideA ipiv strideP C ldc strideC info batch_count,
         rocsolver_getri_outofplace_strided_batched T None n A lda strideA ipiv
           strideP C ldc strideC info batch_count
         = (rocblas_status_invalid_handle, [])
         /\ rocsolver_getri_npvt_outofplace_strided_batched T None n A lda strideA
              C ldc strideC info batch_count
            = (rocblas_status_invalid_handle, []))
  /\ (forall T handle m n A lda ipiv info,
         rocsolver_getrf_64 false T handle m n A lda ipiv info
         = (rocblas_status_not_implemented, [])
         /\ rocsolver_getrf_npvt_64 false T handle m n A lda info
            = (rocblas_status_not_implemented, []))
  /\ (forall T handle trans n nrhs A lda strideA ipiv strideP B ldb strideB batch_count,
         rocsolver_getrs_strided_batched_64 false T handle trans n nrhs A lda strideA
           ipiv strideP B ldb strideB batch_count
         = (rocblas_status_not_implemented, [])).
Proof.
  repeat split.
Qed.

(** ** Kernels launched by the template of gesv-outofplace *)

Lemma in_zrange (n x : Z) : In x (zrange n) <-> 0 <= x < n.
Proof.
  unfold zrange. rewrite in_map_iff. split.
  - intros [k [<- Hk]]. apply in_seq in Hk. lia.
  - intros Hx. exists (Z.to_nat x). split; [lia|]. apply in_seq. lia.
Qed.

Lemma in_launch_threads (grid block : dim3) (x y z : Z) :
  In (x, y, z) (launch_threads grid block)
  <-> 0 <= x < dim_x grid * dim_x block
      /\ 0 <= y < dim_y grid * dim_y block
      /\ 0 <= z < dim_z grid * dim_z block.
Proof.
  unfold launch_threads. rewrite !in_prod_iff, !in_zrange. tauto.
Qed.

Lemma upd_same (m : devmem) (a v : Z) : upd m a v a = v.
Proof. unfold upd. now rewrite Z.eqb_refl. Qed.

Lemma upd_other (m : devmem) (a a' v : Z) : a' <> a -> upd m a v a' = m a'.
Proof. unfold upd. intros H. apply Z.eqb_neq in H. now rewrite H. Qed.

Lemma thread_step_other (k : store_kernel) (m : devmem) (t : Z * Z * Z) (a : ptr) :
  (k_guard k t = true -> k_addr k t <> a) -> thread_step k m t a = m a.
Proof.
  unfold thread_step. intros H. destruct (k_guard k t); [|reflexivity].
  apply upd_other. intros E. now apply H.
Qed.

(** A cell that no thread of the launch stores to keeps its content. *)
Lemma fold_threads_frame (k : store_kernel) (ts : list (Z * Z * Z)) (a : ptr) :
  (forall t, In t ts -> k_guard k t = true -> k_addr k t <> a) ->
  forall m, fold_left (thread_step k) ts m a = m a.
Proof.
  induction ts as [|t ts IH]; intros Hts m; [reflexivity|].
  cbn. rewrite IH.
  - apply thread_step_other. apply Hts. now left.
  - intros t' Ht'. apply Hts. now right.
Qed.

(** Every thread that stores to the cell stores [v], whatever the memory it
    runs on, and one of them belongs to the launch: the cell ends with [v]. *)
Lemma fold_threads_store (k : store_kernel) (ts : list (Z * Z * Z)) (a : ptr) (v : Z)
    (P : devmem -> Prop) :
  (forall t m, In t ts -> P m -> P (thread_step k m t)) ->
  (forall t m, In t ts -> P m -> k_guard k t = true -> k_addr k t = a -> k_value k t m = v) ->
  forall m, P m ->
    (m a = v \/ exists t, In t ts /\ k_guard k t = true /\ k_addr k t = a) ->
    fold_left (thread_step k) ts m a = v.
Proof.
  induction ts as [|t ts IH]; intros Hinv Hv m Pm Hm.
  - destruct Hm as [Hm | [t [[] _]]]. exact Hm.
  - cbn. apply IH.
    + intros t' m' Ht'. apply Hinv. now right.
    + intros t' m' Ht'. apply Hv. now right.
    + apply Hinv; [now left | exact Pm].
    + unfold thread_step at 1.
      destruct (k_guard k t) eqn:Hg.
      * destruct (Z.eq_dec (k_addr k t) a) as [Ea | Na].
        -- left. rewrite Ea, upd_same. rewrite <- Ea in *. apply Hv; auto. now left.
        -- destruct Hm as [Hm | [t' [[<- | Ht'] [Hg' Ha']]]].
           ++ left. rewrite upd_other by congruence. exact Hm.
           ++ contradiction.
           ++ right. exists t'. auto.
      * destruct Hm as [Hm | [t' [[<- | Ht'] [Hg' Ha']]]].
        -- now left.
        -- congruence.
        -- right. exists t'. auto.
Qed.

Lemma run_reset_info_sets (grid block : dim3) (info : ptr) (n val : Z) (m : devmem) (b : Z) :
  0 <= b < n -> b < dim_x grid * dim_x block ->
  0 < dim_y grid * dim_y block -> 0 < dim_z grid * dim_z block ->
  run_kernel (reset_info info n val) grid block m (info + b) = val.
Proof.
  intros Hb Hx Hy Hz. unfold run_kernel.
  apply (fold_threads_store _ _ _ _ (fun _ => True)); trivial.
  right. exists (b, 0, 0). split; [apply in_launch_threads; lia|].
  cbn. split; [apply Z.ltb_lt; lia | reflexivity].
Qed.

Lemma run_reset_info_frame (grid block : dim3) (info : ptr) (n val : Z) (m : devmem) (a : ptr) :
  ~ in_array info n a ->
  run_kernel (reset_info info n val) grid block m a = m a.
Proof.
  intros Ha. unfold run_kernel. apply fold_threads_frame.
  intros [[x y] z] Ht Hg E. apply in_launch_threads in Ht. cbn in Hg, E.
  apply Z.ltb_lt in Hg. apply Ha. unfold in_array. lia.
Qed.

Lemma blocks_cover (bs n : Z) : 0 < bs -> 0 < n -> n <= (Z.quot (n - 1) bs + 1) * bs.
Proof.
  intros Hbs Hn. rewrite Z.quot_div_nonneg by lia.
  pose proof (Z.mul_succ_div_gt (n - 1) bs Hbs). lia.
Qed.



(** ** The template of gesv-outofplace *)

(** C6. For n = 0, nrhs = 0 or batch_count = 0 (and batch_count not
    negative) the template returns success; the only device work it issues
    is the launch that resets info, to which no matrix pointer is passed;
    afterwards the info entry of every instance is 0 and every cell outside
    info[0 .. batch_count) holds what it held before. *)
Theorem gesv_outofplace_template_quick_return `{LaunchConfig} `{Kernels}
    (BATCHED STRIDED : bool) (T : elem_type) (handle : _rocblas_handle)
    (n nrhs : Z) (A : U) (shiftA lda strideA : Z) (ipiv : ptr) (strideP : Z)
    (B : U) (shiftB ldb strideB : Z) (X : U) (shiftX ldx strideX : Z)
    (info : ptr) (batch_count : Z)
    (scalars work1 work2 work3 work4 pivotval pivotidx iipiv iinfo : ptr)
    (optim_mem : bool) :
  0 < BS1 -> 0 <= batch_count ->
  n = 0 \/ nrhs = 0 \/ batch_count = 0 ->
  let r := rocsolver_gesv_outofplace_template BATCHED STRIDED T handle n nrhs
             A shiftA lda strideA ipiv strideP B shiftB ldb strideB
             X shiftX ldx strideX info batch_count scalars work1 work2 work3 work4
             pivotval pivotidx iipiv iinfo optim_mem in
  fst r = rocblas_status_success
  /\ (forall op, In op (snd r) ->
        op = op_reset_info (mk_dim3 (Z.quot (batch_count - 1) BS1 + 1) 1 1)
               (mk_dim3 BS1 1 1) info batch_count 0)
  /\ forall mem,
       (forall b, 0 <= b < batch_count -> run_stream (snd r) mem (info + b) = 0)
       /\ (forall a, ~ in_array info batch_count a -> run_stream (snd r) mem a = mem a).
Proof.
  intros HBS Hbc Hq r. subst r.
  unfold rocsolver_gesv_outofplace_template. host_unfold.
  destruct (Z.eqb_spec batch_count 0) as [E0 | N0]; cbn.
  - repeat split; try tauto. intros b Hb. lia.
  - assert (Hz : (n =? 0) || (nrhs =? 0) = true).
    { apply orb_true_iff. rewrite !Z.eqb_eq. tauto. }
    rewrite Hz. cbn. split; [reflexivity|]. split.
    + intros op [<- | []]. reflexivity.
    + intros mem. split.
      * intros b Hb. apply run_reset_info_sets; cbn; try lia.
        pose proof (blocks_cover BS1 batch_count HBS). lia.
      * intros a Ha. now apply run_reset_info_frame.
Qed.


(** ** The theorems at concrete calls *)





(** The composition rule at the shape (4, 2, 3). *)
Lemma gesv_outofplace_getMemorySize_max_and_example :
  composite_of_getrf_getrs
    (@rocsolver_getrf_getMemorySize example_planners false true double 4 4 true 3 None)
    (@rocsolver_getrs_getMemorySize example_planners false true double
       rocblas_operation_none 4 2 3 None None)
    (@rocsolver_gesv_outofplace_getMemorySize example_planners false true double 4 2 3
       (mk_out (fun _ => 7) false)).
Proof.
  apply (@gesv_outofplace_getMemorySize_max_and example_planners); lia.
Defined.

(** The quick return at nrhs = 0. *)
Lemma gesv_outofplace_getMemorySize_quick_return_example :
  (forall r, size_of (@rocsolver_gesv_outofplace_getMemorySize example_planners
                        false false float 5 0 2 (mk_out (fun _ => 7) false)) r = 0)
  /\ optim_mem_of (@rocsolver_gesv_outofplace_getMemorySize example_planners
                     false false float 5 0 2 (mk_out (fun _ => 7) false)) = true.
Proof.
  apply (@gesv_outofplace_getMemorySize_quick_return example_planners). right. left. reflexivity.
Defined.

(** lda < n together with null A and null info: invalid_size. *)
Lemma gesv_outofplace_argCheck_size_first_example :
  rocsolver_gesv_outofplace_argCheck example_handle 2 1 1 2 2
    (U_ptr nullptr) (U_ptr 3000) (U_ptr 4000) 2000 nullptr 1
  = rocblas_status_invalid_size
  /\ rocsolver_gesv_outofplace_argCheck example_handle 2 1 1 2 2
       (U_ptr nullptr) (U_ptr 3000) (U_ptr 4000) 2000 nullptr 1
     <> rocblas_status_invalid_pointer.
Proof.
  apply gesv_outofplace_argCheck_size_first.
  - unfold gesv_size_condition. lia.
  - unfold gesv_null_pointer_condition. left. split; [lia | reflexivity].
Defined.

(** All pointers null in query mode; getrf reports its nine sizes. *)
Lemma size_query_reports_sizes_only_example :
  rocsolver_gesv_outofplace_argCheck example_query_handle 4 2 4 4 4
    (U_ptr nullptr) (U_ptr nullptr) (U_ptr nullptr) nullptr nullptr 3
  = rocblas_status_continue
  /\ @reports_only example_env example_query_handle [24; 64; 8; 0; 0; 8; 4; 16; 4]
       (@rocsolver_getrf_impl example_env example_planners double
          (Some example_query_handle) 4 4 (U_ptr nullptr) 4 nullptr nullptr true).
Proof.
  destruct (@size_query_reports_sizes_only example_env example_planners
              example_query_handle eq_refl) as [Hgesv [Hgetrf _]].
  split.
  - apply Hgesv. unfold gesv_sizes_valid. lia.
  - apply (Hgetrf double 4 4 (U_ptr nullptr) 4 nullptr nullptr true). reflexivity.
Defined.

(** n = 0 with two instances: both info entries are reset, A is not
    touched. *)
Lemma gesv_outofplace_template_quick_return_example :
  let r := @rocsolver_gesv_outofplace_template example_config false true double
             example_handle 0 3 (U_ptr 1000) 0 1 0 2000 0 (U_ptr 3000) 0 1 0
             (U_ptr 4000) 0 1 0 5000 2 0 0 0 0 0 0 0 0 0 true in
  fst r = rocblas_status_success
  /\ snd r = [op_reset_info (mk_dim3 1 1 1) (mk_dim3 256 1 1) 5000 2 0]
  /\ @run_stream example_kernels (snd r) example_mem 5000 = 0
  /\ @run_stream example_kernels (snd r) example_mem 5001 = 0
  /\ @run_stream example_kernels (snd r) example_mem 1000 = 1000.
Proof.
  cbv zeta.
  destruct (@gesv_outofplace_template_quick_return example_config example_kernels
              false true double example_handle 0 3 (U_ptr 1000) 0 1 0 2000 0
              (U_ptr 3000) 0 1 0 (U_ptr 4000) 0 1 0 5000 2 0 0 0 0 0 0 0 0 0 true)
    as [Hst [_ Hmem]].
  - reflexivity.
  - lia.
  - left. reflexivity.
  - destruct (Hmem example_mem) as [Hinfo Hframe].
    split; [exact Hst|]. split; [reflexivity|].
    split; [apply (Hinfo 0); lia|].
    split; [apply (Hinfo 1); lia|].
    apply Hframe. unfold in_array. lia.
Defined.

(** getrf on a 4 by 4 matrix: the sizes of the query are the sizes of the
    request. *)
Lemma planner_same_sizes_in_query_and_execution_example :
  exists sizes,
    reported_sizes (snd (@rocsolver_getrf_impl example_env example_planners double
                           (Some example_query_handle) 4 4 (U_ptr 1000) 4 2000 5000 true))
    = Some sizes
    /\ requested_sizes (snd (@rocsolver_getrf_impl example_env example_planners double
                               (Some example_handle) 4 4 (U_ptr 1000) 4 2000 5000 true))
       = Some sizes.
Proof.
  apply (proj2 (@planner_same_sizes_in_query_and_execution example_env example_planners));
    reflexivity.
Defined.


(** In a build without HAVE_ROCBLAS_64 the 64-bit getrf answers
    not_implemented to a null handle. *)
Lemma getrf_64_null_handle_not_implemented :
  @rocsolver_getrf_64 example_env example_planners false double None 4 4 (U_ptr 1000) 4 2000 5000
  = (rocblas_status_not_implemented, [])
  /\ fst (@rocsolver_getrf_64 example_env example_planners false double None 4 4
            (U_ptr 1000) 4 2000 5000)
     <> rocblas_status_invalid_handle.
Proof. split; [reflexivity | discriminate]. Qed.

(** n = 0, nrhs = 0, one instance, null info. *)
Lemma gesv_outofplace_argCheck_null_info_example :
  rocsolver_gesv_outofplace_argCheck example_handle 0 0 1 1 1
    (U_ptr 1000) (U_ptr 3000) (U_ptr 4000) 2000 nullptr 1
  = rocblas_status_invalid_pointer.
Proof.
  apply gesv_outofplace_argCheck_null_info.
  - reflexivity.
  - unfold gesv_sizes_valid. lia.
  - lia.
  - reflexivity.
Defined.

(** With lda < n the size test answers first, null info or not. *)
Lemma gesv_outofplace_argCheck_null_info_invalid_size :
  rocblas_is_device_memory_size_query example_handle = false
  /\ rocsolver_gesv_outofplace_argCheck example_handle 2 1 1 2 2
       (U_ptr 1000) (U_ptr 3000) (U_ptr 4000) 2000 nullptr 1
     = rocblas_status_invalid_size
  /\ rocsolver_gesv_outofplace_argCheck example_handle 2 1 1 2 2
       (U_ptr 1000) (U_ptr 3000) (U_ptr 4000) 2000 nullptr 1
     <> rocblas_status_invalid_pointer.
Proof. repeat split. discriminate. Qed.

(** ** Further properties of the top-level routines *)

Lemma status_neq_continue (st : rocblas_status) :
  st <> rocblas_status_continue ->
  rocblas_status_eqb st rocblas_status_continue = false.
Proof. destruct st; intros H; try reflexivity. now elim H. Qed.

(** X1. When the argument check of a top-level routine (getrf, getrs
    strided-batched, getri, getri-outofplace strided-batched) answers
    anything but continue, the routine returns that answer unchanged and no
    event has happened: no size report, no allocation request, no device
    work. *)
Theorem argCheck_failure_passes_through `{HostEnv} `{Planners} (h : _rocblas_handle) :
  (forall T m n A lda ipiv info pivot,
      rocsolver_getf2_getrf_argCheck h m n lda A ipiv info pivot
      <> rocblas_status_continue ->
      rocsolver_getrf_impl T (Some h) m n A lda ipiv info pivot
      = (rocsolver_getf2_getrf_argCheck h m n lda A ipiv info pivot, []))
  /\
  (forall T trans n nrhs A lda strideA ipiv strideP B ldb strideB batch_count,
      rocsolver_getrs_argCheck h trans n nrhs lda ldb A B ipiv batch_count
      <> rocblas_status_continue ->
      rocsolver_getrs_strided_batched_impl T (Some h) trans n nrhs A lda strideA ipiv
        strideP B ldb strideB batch_count
      = (rocsolver_getrs_argCheck h trans n nrhs lda ldb A B ipiv batch_count, []))
  /\
  (forall T n A lda ipiv info pivot,
      rocsolver_getri_argCheck h n lda A ipiv info pivot <> rocblas_status_continue ->
      rocsolver_getri_impl T (Some h) n A lda ipiv info pivot
      = (rocsolver_getri_argCheck h n lda A ipiv info pivot, []))
  /\
  (forall T n A lda strideA ipiv strideP C ldc strideC info pivot batch_count,
      rocsolver_getri_outofplace_argCheck h n lda ldc A C ipiv info pivot batch_count
      <> rocblas_status_continue ->
      rocsolver_getri_outofplace_strided_batched_impl T (Some h) n A lda strideA ipiv
        strideP C ldc strideC info pivot batch_count
      = (rocsolver_getri_outofplace_argCheck h n lda ldc A C ipiv info pivot batch_count,
         [])).
Proof.
  split; [|split; [|split]]; intros * Hst; apply status_neq_continue in Hst;
    unfold rocsolver_getrf_impl, rocsolver_getrs_strided_batched_impl,
      rocsolver_getri_impl, rocsolver_getri_outofplace_strided_batched_impl;
    host_unfold; rewrite Hst; reflexivity.
Qed.

(** X2. In memory-size-query mode no top-level routine requests
    workspace or issues device work, whatever its argument check answers. *)
Theorem size_query_never_allocates `{HostEnv} `{Planners} (h : _rocblas_handle) :
  rocblas_is_device_memory_size_query h = true ->
  (forall T m n A lda ipiv info pivot,
      requested_sizes (snd (rocsolver_getrf_impl T (Some h) m n A lda ipiv info pivot))
      = None
      /\ device_ops (snd (rocsolver_getrf_impl T (Some h) m n A lda ipiv info pivot))
         = [])
  /\
  (forall T trans n nrhs A lda strideA ipiv strideP B ldb strideB batch_count,
      requested_sizes
        (snd (rocsolver_getrs_strided_batched_impl T (Some h) trans n nrhs A lda strideA
                ipiv strideP B ldb strideB batch_count)) = None
      /\ device_ops
           (snd (rocsolver_getrs_strided_batched_impl T (Some h) trans n nrhs A lda
                   strideA ipiv strideP B ldb strideB batch_count)) = [])
  /\
  (forall T n A lda ipiv info pivot,
      requested_sizes (snd (rocsolver_getri_impl T (Some h) n A lda ipiv info pivot))
      = None
      /\ device_ops (snd (rocsolver_getri_impl T (Some h) n A lda ipiv info pivot)) = [])
  /\
  (forall T n A lda strideA ipiv strideP C ldc strideC info pivot batch_count,
      requested_sizes
        (snd (rocsolver_getri_outofplace_strided_batched_impl T (Some h) n A lda strideA
                ipiv strideP C ldc strideC info pivot batch_count)) = None
      /\ device_ops
           (snd (rocsolver_getri_outofplace_strided_batched_impl T (Some h) n A lda
                   strideA ipiv strideP C ldc strideC info pivot batch_count)) = []).
Proof.
  intros Hq.
  split; [|split; [|split]]; intros *;
    unfold rocsolver_getrf_impl, rocsolver_getrs_strided_batched_impl,
      rocsolver_getri_impl, rocsolver_getri_outofplace_strided_batched_impl;
    host_unfold;
    destruct (rocblas_status_eqb _ rocblas_status_continue); cbn;
    rewrite ?Hq; split; reflexivity.
Qed.

Ltac no_failed_allocation :=
  let s := fresh "s" in let Hin := fresh "Hin" in
  intros [s Hin]; not_in_events Hin.

(** X3. Whenever a top-level routine issues device work, the first
    event of the call is a granted allocation request, no sizes were reported
    to the handle, and no allocation request was refused. *)
Theorem device_work_only_after_granted_allocation `{HostEnv} `{Planners} :
  (forall T handle m n A lda ipiv info pivot,
      device_work_after_allocation
        (snd (rocsolver_getrf_impl T handle m n A lda ipiv info pivot)))
  /\
  (forall T handle trans n nrhs A lda strideA ipiv strideP B ldb strideB batch_count,
      device_work_after_allocation
        (snd (rocsolver_getrs_strided_batched_impl T handle trans n nrhs A lda strideA
                ipiv strideP B ldb strideB batch_count)))
  /\
  (forall T handle n A lda ipiv info pivot,
      device_work_after_allocation
        (snd (rocsolver_getri_impl T handle n A lda ipiv info pivot)))
  /\
  (forall T handle n A lda strideA ipiv strideP C ldc strideC info pivot batch_count,
      device_work_after_allocation
        (snd (rocsolver_getri_outofplace_strided_batched_impl T handle n A lda strideA
                ipiv strideP C ldc strideC info pivot batch_count))).
Proof.
  unfold device_work_after_allocation, starts_with_granted_allocation.
  split; [|split; [|split]]; intros *;
    unfold rocsolver_getrf_impl, rocsolver_getrs_strided_batched_impl,
      rocsolver_getri_impl, rocsolver_getri_outofplace_strided_batched_impl;
    host_cases; intros Hops; try (now elim Hops);
    (split; [eexists; eexists; reflexivity | split; [reflexivity | no_failed_allocation]]).
Qed.

(** X4. The execution path of rocsolver_getrf_impl.  Outside query mode,
    when the argument check lets the call through and the allocator grants
    the nine buffers, the routine returns what the getrf template returns;
    it initialises the scalars exactly when their size is positive, and
    before the factorization; the template is called on a batch of one,
    unshifted, with zero strides, the buffers in the order of the request
    and the planner's optimal-memory flag. *)
Theorem getrf_impl_execution `{HostEnv} `{Planners} (T : elem_type)
    (h : _rocblas_handle) (m n : Z) (A : U) (lda : Z) (ipiv info : ptr)
    (pivot : bool) (bufs : list ptr) :
  rocblas_is_device_memory_size_query h = false ->
  rocsolver_getf2_getrf_argCheck h m n lda A ipiv info pivot = rocblas_status_continue ->
  rocblas_device_malloc h
    (getrf_size_list (rocsolver_getrf_getMemorySize false false T m n pivot 1 (Some lda)))
  = Some bufs ->
  let g := rocsolver_getrf_getMemorySize false false T m n pivot 1 (Some lda) in
  let buf := fun k => nth k bufs nullptr in
  let c := mk_getrf_call false false T m n A 0 1 lda 0 ipiv 0 0 info 1
             (buf 0%nat) (buf 1%nat) (buf 2%nat) (buf 3%nat) (buf 4%nat)
             (buf 5%nat) (buf 6%nat) (buf 7%nat) (buf 8%nat) (rf_opt g) pivot in
  rocsolver_getrf_impl T (Some h) m n A lda ipiv info pivot
  = (rocsolver_getrf_template h c,
     ev_device_malloc (getrf_size_list g) true
     :: (if 0 <? rf_size g size_scalars
         then [ev_device (op_init_scalars (buf 0%nat))] else [])
     ++ [ev_device (op_getrf c)]).
Proof.
  intros Hq Hc Hm g buf c. subst g buf c.
  unfold rocsolver_getrf_impl. host_unfold. rewrite Hc. cbn. rewrite Hq. cbn.
  unfold getrf_size_list, all_roles in *. cbn [map] in *. rewrite Hm. cbn.
  destruct (0 <? _); reflexivity.
Qed.

(** X5. The execution path of rocsolver_getrs_strided_batched_impl.
    Outside query mode, when the argument check lets the call through and
    the allocator grants the four buffers, the routine returns what the
    getrs template returns; the template is called with the caller's
    strides and batch count, zero shifts, unit increments, the buffers in
    the order of the request and the planner's optimal-memory flag. *)
Theorem getrs_strided_batched_impl_execution `{HostEnv} `{Planners} (T : elem_type)
    (h : _rocblas_handle) (trans : rocblas_operation) (n nrhs : Z)
    (A : U) (lda strideA : Z) (ipiv : ptr) (strideP : Z)
    (B : U) (ldb strideB : Z) (batch_count : Z) (bufs : list ptr) :
  rocblas_is_device_memory_size_query h = false ->
  rocsolver_getrs_argCheck h trans n nrhs lda ldb A B ipiv batch_count
  = rocblas_status_continue ->
  rocblas_device_malloc h
    (work_size_list (rocsolver_getrs_getMemorySize false true T trans n nrhs batch_count
                       (Some lda) (Some ldb)))
  = Some bufs ->
  let s := rocsolver_getrs_getMemorySize false true T trans n nrhs batch_count
             (Some lda) (Some ldb) in
  let buf := fun k => nth k bufs nullptr in
  let c := mk_getrs_call false true T trans n nrhs A 0 1 lda strideA ipiv strideP
             B 0 1 ldb strideB batch_count
             (buf 0%nat) (buf 1%nat) (buf 2%nat) (buf 3%nat) (ws_opt s) true in
  rocsolver_getrs_strided_batched_impl T (Some h) trans n nrhs A lda strideA ipiv
    strideP B ldb strideB batch_count
  = (rocsolver_getrs_template h c,
     [ev_device_malloc (work_size_list s) true; ev_device (op_getrs c)]).
Proof.
  intros Hq Hc Hm s buf c. subst s buf c.
  unfold rocsolver_getrs_strided_batched_impl. host_unfold.
  rewrite Hc. cbn. rewrite Hq. cbn.
  unfold work_size_list in Hm. rewrite Hm. reflexivity.
Qed.

Lemma wrap_int_in_range (z : Z) : - 2 ^ 31 <= wrap_int z < 2 ^ 31.
Proof.
  unfold wrap_int. pose proof (Z.mod_pos_bound (z + 2 ^ 31) (2 ^ 32)). lia.
Qed.

Lemma wrap_int_small (z : Z) : - 2 ^ 31 <= z < 2 ^ 31 -> wrap_int z = z.
Proof.
  intros Hz. unfold wrap_int. rewrite Z.mod_small by lia. lia.
Qed.

Lemma wrap_int_period (z k : Z) : wrap_int (z + k * 2 ^ 32) = wrap_int z.
Proof.
  unfold wrap_int. replace (z + k * 2 ^ 32 + 2 ^ 31) with (z + 2 ^ 31 + k * 2 ^ 32) by lia.
  now rewrite Z.mod_add by lia.
Qed.

(** X8. The entry point rocsolver_getri_outofplace_strided_batched hands
    strideA and strideP to the template as given, and strideC reduced to a
    32-bit integer: two values of strideC that differ by a multiple of 2^32
    give the same call, and a value in the 32-bit range is handed on
    unchanged. *)
Theorem getri_outofplace_strideC_narrowed `{HostEnv} `{Planners} (T : elem_type)
    (handle : rocblas_handle) (n : Z) (A : U) (lda strideA : Z)
    (ipiv : ptr) (strideP : Z) (C : U) (ldc strideC : Z) (info : ptr)
    (batch_count : Z) :
  (forall c,
      In (ev_device (op_getri_outofplace c))
         (snd (rocsolver_getri_outofplace_strided_batched T handle n A lda strideA ipiv
                 strideP C ldc strideC info batch_count)) ->
      ro_strideA c = strideA /\ ro_strideP c = strideP
      /\ ro_strideC c = wrap_int strideC
      /\ - 2 ^ 31 <= ro_strideC c < 2 ^ 31)
  /\ (forall k,
         rocsolver_getri_outofplace_strided_batched T handle n A lda strideA ipiv
           strideP C ldc (strideC + k * 2 ^ 32) info batch_count
         = rocsolver_getri_outofplace_strided_batched T handle n A lda strideA ipiv
             strideP C ldc strideC info batch_count)
  /\ (- 2 ^ 31 <= strideC < 2 ^ 31 ->
      rocsolver_getri_outofplace_strided_batched T handle n A lda strideA ipiv
        strideP C ldc strideC info batch_count
      = rocsolver_getri_outofplace_strided_batched_impl T handle n A lda strideA ipiv
          strideP C ldc strideC info true batch_count).
Proof.
  split; [|split].
  - intros c.
    unfold rocsolver_getri_outofplace_strided_batched,
      rocsolver_getri_outofplace_strided_batched_impl.
    host_cases; intros Hin; not_in_events Hin.
    inversion Hin; subst; cbn. pose proof (wrap_int_in_range strideC). tauto.
  - intros k. unfold rocsolver_getri_outofplace_strided_batched.
    now rewrite wrap_int_period.
  - intros Hr. unfold rocsolver_getri_outofplace_strided_batched.
    now rewrite wrap_int_small.
Qed.

(** ** Further properties of the argument check of gesv-outofplace *)

Lemma gesv_null_pointer_test (n nrhs bc : Z) (A B X : U) (ipiv info : ptr) :
  (nonzero n && U_is_null A) || (nonzero n && is_null ipiv)
  || (nonzero (mul_int nrhs n) && U_is_null B)
  || (nonzero (mul_int nrhs n) && U_is_null X)
  || (nonzero bc && is_null info) = true
  <-> gesv_null_pointer_condition n nrhs bc A B X ipiv info.
Proof.
  unfold gesv_null_pointer_condition, nonzero, is_null.
  rewrite !orb_true_iff, !andb_true_iff, !negb_true_iff, !Z.eqb_neq, !Z.eqb_eq.
  tauto.
Qed.

Lemma gesv_sizes_valid_iff (n nrhs lda ldb ldx bc : Z) :
  gesv_sizes_valid n nrhs lda ldb ldx bc <-> ~ gesv_size_condition n nrhs lda ldb ldx bc.
Proof. unfold gesv_sizes_valid, gesv_size_condition. lia. Qed.


Lemma mul_int_zero_r (a : Z) : mul_int a 0 = 0.
Proof. unfold mul_int. rewrite Z.mul_0_r. reflexivity. Qed.

Lemma mul_int_zero_l (a : Z) : mul_int 0 a = 0.
Proof. reflexivity. Qed.

Lemma mul_int_small (a b : Z) : 0 <= a -> 0 <= b -> a * b < 2 ^ 31 -> mul_int a b = a * b.
Proof. intros Ha Hb Hab. unfold mul_int. apply wrap_int_small. nia. Qed.

(** X12. Empty operands need no buffer.  With n = 0 the answer of the
    argument check of gesv-outofplace does not depend on A, B, X and ipiv;
    with nrhs = 0 it does not depend on B and X; with n = 0, valid sizes and
    no query, it is invalid_pointer when batch_count is not zero and info is
    null, and continue otherwise. *)
Theorem gesv_outofplace_argCheck_empty
    (handle : _rocblas_handle) (n nrhs lda ldb ldx : Z) (A B X : U)
    (ipiv info : ptr) (batch_count : Z) :
  (n = 0 ->
   forall A' B' X' ipiv',
     rocsolver_gesv_outofplace_argCheck handle n nrhs lda ldb ldx A B X ipiv info
       batch_count
     = rocsolver_gesv_outofplace_argCheck handle n nrhs lda ldb ldx A' B' X' ipiv' info
         batch_count)
  /\ (nrhs = 0 ->
      forall B' X',
        rocsolver_gesv_outofplace_argCheck handle n nrhs lda ldb ldx A B X ipiv info
          batch_count
        = rocsolver_gesv_outofplace_argCheck handle n nrhs lda ldb ldx A B' X' ipiv info
            batch_count)
  /\ (n = 0 ->
      gesv_sizes_valid n nrhs lda ldb ldx batch_count ->
      rocblas_is_device_memory_size_query handle = false ->
      rocsolver_gesv_outofplace_argCheck handle n nrhs lda ldb ldx A B X ipiv info
        batch_count
      = if nonzero batch_count && is_null info
        then rocblas_status_invalid_pointer
        else rocblas_status_continue).
Proof.
  split; [|split].
  - intros -> A' B' X' ipiv'. unfold rocsolver_gesv_outofplace_argCheck.
    rewrite mul_int_zero_r. reflexivity.
  - intros -> B' X'. unfold rocsolver_gesv_outofplace_argCheck.
    rewrite mul_int_zero_l. reflexivity.
  - intros -> Hv Hq. unfold rocsolver_gesv_outofplace_argCheck.
    rewrite (gesv_size_test_false _ _ _ _ _ _ Hv), Hq, mul_int_zero_r. reflexivity.
Qed.

(** X13. A call that the argument check of gesv-outofplace does not
    reject for its sizes gets the same answer with any larger leading
    dimensions lda, ldb, ldx. *)
Theorem gesv_outofplace_argCheck_larger_ld
    (handle : _rocblas_handle) (n nrhs lda ldb ldx lda' ldb' ldx' : Z) (A B X : U)
    (ipiv info : ptr) (batch_count : Z) :
  rocsolver_gesv_outofplace_argCheck handle n nrhs lda ldb ldx A B X ipiv info
    batch_count <> rocblas_status_invalid_size ->
  lda <= lda' -> ldb <= ldb' -> ldx <= ldx' ->
  rocsolver_gesv_outofplace_argCheck handle n nrhs lda' ldb' ldx' A B X ipiv info
    batch_count
  = rocsolver_gesv_outofplace_argCheck handle n nrhs lda ldb ldx A B X ipiv info
      batch_count.
Proof.
  intros Hne Ha Hb Hx.
  assert (Hv : gesv_sizes_valid n nrhs lda ldb ldx batch_count).
  { apply gesv_sizes_valid_iff. intros Hc. apply gesv_size_test in Hc.
    apply Hne. unfold rocsolver_gesv_outofplace_argCheck. now rewrite Hc. }
  assert (Hv' : gesv_sizes_valid n nrhs lda' ldb' ldx' batch_count).
  { unfold gesv_sizes_valid in *. lia. }
  unfold rocsolver_gesv_outofplace_argCheck.
  now rewrite (gesv_size_test_false _ _ _ _ _ _ Hv), (gesv_size_test_false _ _ _ _ _ _ Hv').
Qed.

(** What an accepted call outside query mode tells about its arguments. *)
Lemma gesv_outofplace_argCheck_continue_inv
    (handle : _rocblas_handle) (n nrhs lda ldb ldx : Z) (A B X : U)
    (ipiv info : ptr) (batch_count : Z) :
  rocblas_is_device_memory_size_query handle = false ->
  rocsolver_gesv_outofplace_argCheck handle n nrhs lda ldb ldx A B X ipiv info
    batch_count = rocblas_status_continue ->
  gesv_sizes_valid n nrhs lda ldb ldx batch_count
  /\ ~ gesv_null_pointer_condition n nrhs batch_count A B X ipiv info.
Proof.
  intros Hq. unfold rocsolver_gesv_outofplace_argCheck. rewrite Hq.
  pose proof (gesv_size_test n nrhs lda ldb ldx batch_count) as Hs.
  pose proof (gesv_null_pointer_test n nrhs batch_count A B X ipiv info) as Hp.
  destruct ((n <? 0) || _ || _ || _ || _ || _); [discriminate|].
  destruct ((nonzero n && _) || _ || _ || _ || _); [discriminate|].
  intros _. rewrite gesv_sizes_valid_iff. split; intros Hc.
  - apply Hs in Hc. discriminate.
  - apply Hp in Hc. discriminate.
Qed.

Lemma is_null_false (p : ptr) : p <> nullptr -> is_null p = false.
Proof. intros H. unfold is_null. now apply Z.eqb_neq. Qed.

(** X14. A call that the argument check of gesv-outofplace lets through
    outside query mode, with n * nrhs within the 32-bit range, hands no null
    pointer among A, B, X, ipiv and info to the device: every operation the
    template issues has non-null matrix, pivot and info arguments. *)
Theorem gesv_outofplace_accepted_call_has_buffers `{LaunchConfig}
    (BATCHED STRIDED : bool) (T : elem_type) (handle : _rocblas_handle)
    (n nrhs : Z) (A : U) (shiftA lda strideA : Z) (ipiv : ptr) (strideP : Z)
    (B : U) (shiftB ldb strideB : Z) (X : U) (shiftX ldx strideX : Z)
    (info : ptr) (batch_count : Z)
    (scalars work1 work2 work3 work4 pivotval pivotidx iipiv iinfo : ptr)
    (optim_mem : bool) :
  rocblas_is_device_memory_size_query handle = false ->
  rocsolver_gesv_outofplace_argCheck handle n nrhs lda ldb ldx A B X ipiv info
    batch_count = rocblas_status_continue ->
  n * nrhs < 2 ^ 31 ->
  forall op,
    In op (snd (rocsolver_gesv_outofplace_template BATCHED STRIDED T handle n nrhs
                  A shiftA lda strideA ipiv strideP B shiftB ldb strideB
                  X shiftX ldx strideX info batch_count scalars work1 work2 work3 work4
                  pivotval pivotidx iipiv iinfo optim_mem)) ->
    op_pointers_not_null op.
Proof.
  intros Hq Hc Hprod op.
  destruct (gesv_outofplace_argCheck_continue_inv _ _ _ _ _ _ _ _ _ _ _ _ Hq Hc)
    as [Hv Hnull].
  unfold gesv_sizes_valid in Hv. unfold gesv_null_pointer_condition in Hnull.
  unfold rocsolver_gesv_outofplace_template. host_unfold.
  destruct (Z.eqb_spec batch_count 0) as [E0 | N0]; cbn; [tauto|].
  assert (Hinfo : info <> nullptr) by (intros E; apply Hnull; tauto).
  destruct (Z.eqb_spec n 0) as [En | Nn]; cbn.
  { intros [<- | []]. exact Hinfo. }
  destruct (Z.eqb_spec nrhs 0) as [Er | Nr]; cbn.
  { intros [<- | []]. exact Hinfo. }
  assert (Hmul : mul_int nrhs n <> 0).
  { rewrite mul_int_small by lia. nia. }
  assert (HA : U_is_null A = false) by (destruct (U_is_null A); [exfalso; tauto | reflexivity]).
  assert (HB : U_is_null B = false) by (destruct (U_is_null B); [exfalso; tauto | reflexivity]).
  assert (HX : U_is_null X = false) by (destruct (U_is_null X); [exfalso; tauto | reflexivity]).
  assert (HP : ipiv <> nullptr) by (intros E; apply Hnull; tauto).
  intros [<- | [<- | [<- | [<- | []]]]]; cbn; auto.
Qed.

(** ** The template of gesv-outofplace against its planner *)

(** X15. The template of gesv-outofplace returns success on every input.
    It calls getrf, and getrs, exactly when n, nrhs and batch_count are all
    non-zero, that is, exactly when the planner does not take its quick
    return.  The sizes the planner reports cover, role by role, what the
    getrf planner asks for the getrf call issued and what the getrs planner
    asks for the getrs call issued (both asked with default leading
    dimensions); when no getrf call is issued the planner reports 0 for
    every role. *)
Theorem gesv_outofplace_template_covered_by_planner `{LaunchConfig} `{Planners}
    (BATCHED STRIDED : bool) (T : elem_type) (handle : _rocblas_handle)
    (n nrhs : Z) (A : U) (shiftA lda strideA : Z) (ipiv : ptr) (strideP : Z)
    (B : U) (shiftB ldb strideB : Z) (X : U) (shiftX ldx strideX : Z)
    (info : ptr) (batch_count : Z)
    (scalars work1 work2 work3 work4 pivotval pivotidx iipiv iinfo : ptr)
    (optim_mem : bool) (out : planner_out) :
  let r := rocsolver_gesv_outofplace_template BATCHED STRIDED T handle n nrhs
             A shiftA lda strideA ipiv strideP B shiftB ldb strideB
             X shiftX ldx strideX info batch_count scalars work1 work2 work3 work4
             pivotval pivotidx iipiv iinfo optim_mem in
  let o := rocsolver_gesv_outofplace_getMemorySize BATCHED STRIDED T n nrhs
             batch_count out in
  fst r = rocblas_status_success
  /\ ((exists c, In (op_getrf c) (snd r)) <-> n <> 0 /\ nrhs <> 0 /\ batch_count <> 0)
  /\ ((exists c, In (op_getrs c) (snd r)) <-> n <> 0 /\ nrhs <> 0 /\ batch_count <> 0)
  /\ (forall c, In (op_getrf c) (snd r) ->
        forall role,
          rf_size (rocsolver_getrf_getMemorySize (rf_BATCHED c) (rf_STRIDED c) (rf_T c)
                     (rf_m c) (rf_n c) (rf_pivot c) (rf_batch_count c) None) role
          <= size_of o role)
  /\ (forall c, In (op_getrs c) (snd r) ->
        forall role, is_work role = true ->
          work_size_of (rocsolver_getrs_getMemorySize (rs_BATCHED c) (rs_STRIDED c)
                          (rs_T c) (rs_trans c) (rs_n c) (rs_nrhs c) (rs_batch_count c)
                          None None) role
          <= size_of o role)
  /\ ((forall c, ~ In (op_getrf c) (snd r)) -> forall role, size_of o role = 0).
Proof.
  intros r o. subst r o.
  unfold rocsolver_gesv_outofplace_template. host_unfold.
  assert (Hdeg : n = 0 \/ nrhs = 0 \/ batch_count = 0 ->
                 forall role,
                   size_of (rocsolver_gesv_outofplace_getMemorySize BATCHED STRIDED T
                              n nrhs batch_count out) role = 0).
  { intros Hq role. apply gesv_outofplace_getMemorySize_zero.
    now apply quick_return_test. }
  destruct (Z.eqb_spec batch_count 0) as [E0 | N0]; cbn;
    [|destruct (Z.eqb_spec n 0) as [En | Nn]; cbn;
      [|destruct (Z.eqb_spec nrhs 0) as [Er | Nr]; cbn]].
  1-3: (split; [reflexivity|]; split; [|split; [|split; [|split]]];
        [ split; [intros [c Hin]; not_in_events Hin | intros; exfalso; tauto]
        | split; [intros [c Hin]; not_in_events Hin | intros; exfalso; tauto]
        | intros c Hin; not_in_events Hin
        | intros c Hin; not_in_events Hin
        | intros _; apply Hdeg; tauto ]).
  split; [reflexivity|]. split; [|split; [|split; [|split]]].
  - split; [tauto | intros _; eexists; right; left; reflexivity].
  - split; [tauto | intros _; eexists; do 3 right; left; reflexivity].
  - intros c [Hc | [Hc | [Hc | [Hc | []]]]]; try discriminate Hc.
    inversion Hc; subst; cbn. intros role.
    rewrite (gesv_outofplace_getMemorySize_general _ _ _ _ _ _ _ role Nn Nr N0).
    destruct (is_work role); lia.
  - intros c [Hc | [Hc | [Hc | [Hc | []]]]]; try discriminate Hc.
    inversion Hc; subst; cbn. intros role Hw.
    rewrite (gesv_outofplace_getMemorySize_general _ _ _ _ _ _ _ role Nn Nr N0), Hw.
    lia.
  - intros Hno. exfalso. eapply Hno. right. left. reflexivity.
Qed.

Lemma blocks_tight (bs n : Z) : 0 < bs -> 0 < n -> (Z.quot (n - 1) bs + 1 - 1) * bs < n.
Proof.
  intros Hbs Hn. rewrite Z.quot_div_nonneg by lia.
  pose proof (Z.mul_div_le (n - 1) bs Hbs). lia.
Qed.

(** X16. For BS1 > 0 and non-negative n, nrhs and batch_count, the
    launches of the template of gesv-outofplace are exact: reset_info runs
    BS1 threads per block on the least number of blocks that covers
    batch_count; copy_mat runs 32 by 32 threads per block on the least
    numbers of blocks that cover n rows and nrhs columns, with one layer of
    blocks per instance. *)
Theorem gesv_outofplace_template_launch_geometry `{LaunchConfig}
    (BATCHED STRIDED : bool) (T : elem_type) (handle : _rocblas_handle)
    (n nrhs : Z) (A : U) (shiftA lda strideA : Z) (ipiv : ptr) (strideP : Z)
    (B : U) (shiftB ldb strideB : Z) (X : U) (shiftX ldx strideX : Z)
    (info : ptr) (batch_count : Z)
    (scalars work1 work2 work3 work4 pivotval pivotidx iipiv iinfo : ptr)
    (optim_mem : bool) :
  0 < BS1 -> 0 <= n -> 0 <= nrhs -> 0 <= batch_count ->
  forall op,
    In op (snd (rocsolver_gesv_outofplace_template BATCHED STRIDED T handle n nrhs
                  A shiftA lda strideA ipiv strideP B shiftB ldb strideB
                  X shiftX ldx strideX info batch_count scalars work1 work2 work3 work4
                  pivotval pivotidx iipiv iinfo optim_mem)) ->
    launch_geometry_exact op
    /\ match op with
       | op_copy_mat grid _ _ _ _ _ _ _ _ _ _ _ => dim_z grid = batch_count
       | _ => True
       end.
Proof.
  intros HBS Hn Hr Hb op.
  unfold rocsolver_gesv_outofplace_template. host_unfold.
  destruct (Z.eqb_spec batch_count 0) as [E0 | N0]; cbn; [tauto|].
  assert (Hreset : exact_cover (Z.quot (batch_count - 1) BS1 + 1) BS1 batch_count).
  { unfold exact_cover. pose proof (blocks_cover BS1 batch_count HBS).
    pose proof (blocks_tight BS1 batch_count HBS). lia. }
  destruct (Z.eqb_spec n 0) as [En | Nn]; cbn.
  { intros [<- | []]. cbn. auto. }
  destruct (Z.eqb_spec nrhs 0) as [Er | Nr]; cbn.
  { intros [<- | []]. cbn. auto. }
  intros [<- | [<- | [<- | [<- | []]]]]; cbn; auto.
  unfold exact_cover.
  pose proof (blocks_cover 32 n). pose proof (blocks_tight 32 n).
  pose proof (blocks_cover 32 nrhs). pose proof (blocks_tight 32 nrhs).
  repeat split; lia.
Qed.

(** X17. For BS1 > 0 and batch_count > 0, whatever n and nrhs are, the
    first operation of the template of gesv-outofplace resets info: the
    rest of the operations (the factorization, when there is one) run on a
    memory in which the info entry of every instance is 0 and every other
    cell is what it was. *)
Theorem gesv_outofplace_template_getrf_sees_reset_info `{LaunchConfig} `{Kernels}
    (BATCHED STRIDED : bool) (T : elem_type) (handle : _rocblas_handle)
    (n nrhs : Z) (A : U) (shiftA lda strideA : Z) (ipiv : ptr) (strideP : Z)
    (B : U) (shiftB ldb strideB : Z) (X : U) (shiftX ldx strideX : Z)
    (info : ptr) (batch_count : Z)
    (scalars work1 work2 work3 work4 pivotval pivotidx iipiv iinfo : ptr)
    (optim_mem : bool) :
  0 < BS1 -> 0 < batch_count ->
  exists reset rest,
    snd (rocsolver_gesv_outofplace_template BATCHED STRIDED T handle n nrhs
           A shiftA lda strideA ipiv strideP B shiftB ldb strideB
           X shiftX ldx strideX info batch_count scalars work1 work2 work3 work4
           pivotval pivotidx iipiv iinfo optim_mem) = reset :: rest
    /\ forall mem,
         run_stream (reset :: rest) mem = run_stream rest (exec_op reset mem)
         /\ (forall b, 0 <= b < batch_count -> exec_op reset mem (info + b) = 0)
         /\ (forall a, ~ in_array info batch_count a -> exec_op reset mem a = mem a).
Proof.
  intros HBS Hb.
  unfold rocsolver_gesv_outofplace_template. host_unfold.
  destruct (Z.eqb_spec batch_count 0) as [E0 | N0]; [lia|]. cbn.
  assert (Hreset : forall mem,
             (forall b, 0 <= b < batch_count ->
                run_kernel (reset_info info batch_count 0)
                  (mk_dim3 (Z.quot (batch_count - 1) BS1 + 1) 1 1) (mk_dim3 BS1 1 1)
                  mem (info + b) = 0)
             /\ (forall a, ~ in_array info batch_count a ->
                   run_kernel (reset_info info batch_count 0)
                     (mk_dim3 (Z.quot (batch_count - 1) BS1 + 1) 1 1) (mk_dim3 BS1 1 1)
                     mem a = mem a)).
  { intros mem. split.
    - intros b Hbb. apply run_reset_info_sets; cbn; try lia.
      pose proof (blocks_cover BS1 batch_count HBS). lia.
    - intros a Ha. now apply run_reset_info_frame. }
  destruct ((n =? 0) || (nrhs =? 0)); cbn;
    eexists; eexists; (split; [reflexivity|]);
    intros mem; (split; [reflexivity | exact (Hreset mem)]).
Qed.

(** ** The calls the entry points hand to the templates *)

Lemma getrf_impl_calls `{HostEnv} `{Planners} (T : elem_type)
    (handle : rocblas_handle) (m n : Z) (A : U) (lda : Z) (ipiv info : ptr)
    (pivot : bool) (c : getrf_call) :
  In (ev_device (op_getrf c))
     (snd (rocsolver_getrf_impl T handle m n A lda ipiv info pivot)) ->
  single_getrf_call c T m n A lda ipiv info pivot.
Proof.
  unfold rocsolver_getrf_impl. host_cases; intros Hin; not_in_events Hin;
    inversion Hin; subst; repeat split.
Qed.

(** X9. Every getrf call issued by an entry point of roclapack_getrf.cpp
    is on the caller's m, n, A, lda and info as a batch of one, unshifted,
    with zero strides.  The pivoting entry points (32-bit and 64-bit) pass
    the caller's ipiv with pivot = true; the non-pivoting ones pass a null
    ipiv with pivot = false. *)
Theorem getrf_entry_points_calls `{HostEnv} `{Planners} (HAVE_ROCBLAS_64 : bool)
    (T : elem_type) (handle : rocblas_handle) (m n : Z) (A : U) (lda : Z)
    (ipiv info : ptr) (c : getrf_call) :
  (In (ev_device (op_getrf c)) (snd (rocsolver_getrf T handle m n A lda ipiv info)) ->
   single_getrf_call c T m n A lda ipiv info true)
  /\ (In (ev_device (op_getrf c))
         (snd (rocsolver_getrf_64 HAVE_ROCBLAS_64 T handle m n A lda ipiv info)) ->
      single_getrf_call c T m n A lda ipiv info true)
  /\ (In (ev_device (op_getrf c)) (snd (rocsolver_getrf_npvt T handle m n A lda info)) ->
      single_getrf_call c T m n A lda nullptr info false)
  /\ (In (ev_device (op_getrf c))
         (snd (rocsolver_getrf_npvt_64 HAVE_ROCBLAS_64 T handle m n A lda info)) ->
      single_getrf_call c T m n A lda nullptr info false).
Proof.
  unfold rocsolver_getrf, rocsolver_getrf_64, rocsolver_getrf_npvt,
    rocsolver_getrf_npvt_64.
  destruct HAVE_ROCBLAS_64; (split; [|split; [|split]]); intros Hin;
    try (cbn in Hin; contradiction); now apply getrf_impl_calls in Hin.
Qed.

Lemma getri_impl_calls `{HostEnv} `{Planners} (T : elem_type)
    (handle : rocblas_handle) (n : Z) (A : U) (lda : Z) (ipiv info : ptr)
    (pivot : bool) (c : getri_call) :
  In (ev_device (op_getri c)) (snd (rocsolver_getri_impl T handle n A lda ipiv info pivot)) ->
  single_getri_call c T n A lda ipiv info pivot.
Proof.
  unfold rocsolver_getri_impl. host_cases; intros Hin; not_in_events Hin;
    inversion Hin; subst; repeat split.
Qed.

(** X10. Every getri call issued by rocsolver_getri is on the caller's
    arguments as a batch of one, unshifted, with zero strides and pivot =
    true; rocsolver_getri_npvt passes a null ipiv and pivot = false; so does
    rocsolver_getri_npvt_outofplace_strided_batched, with strideP = 0, zero
    shifts, the caller's strideA and batch count, and strideC reduced to a
    32-bit integer. *)
Theorem getri_entry_points_calls `{HostEnv} `{Planners}
    (T : elem_type) (handle : rocblas_handle) (n : Z) (A : U) (lda strideA : Z)
    (ipiv : ptr) (C : U) (ldc strideC : Z) (info : ptr) (batch_count : Z) :
  (forall c,
      In (ev_device (op_getri c)) (snd (rocsolver_getri T handle n A lda ipiv info)) ->
      single_getri_call c T n A lda ipiv info true)
  /\ (forall c,
         In (ev_device (op_getri c)) (snd (rocsolver_getri_npvt T handle n A lda info)) ->
         single_getri_call c T n A lda nullptr info false)
  /\ (forall c,
         In (ev_device (op_getri_outofplace c))
            (snd (rocsolver_getri_npvt_outofplace_strided_batched T handle n A lda
                    strideA C ldc strideC info batch_count)) ->
         ro_ipiv c = nullptr /\ ro_strideP c = 0 /\ ro_pivot c = false
         /\ ro_A c = A /\ ro_C c = C /\ ro_info c = info
         /\ ro_batch_count c = batch_count /\ ro_strideA c = strideA
         /\ ro_strideC c = wrap_int strideC
         /\ ro_shiftA c = 0 /\ ro_shiftP c = 0 /\ ro_shiftC c = 0).
Proof.
  split; [|split]; intros c.
  - apply getri_impl_calls.
  - apply getri_impl_calls.
  - unfold rocsolver_getri_npvt_outofplace_strided_batched,
      rocsolver_getri_outofplace_strided_batched_impl.
    host_cases; intros Hin; not_in_events Hin; inversion Hin; subst; repeat split.
Qed.

(** X6. The execution path of rocsolver_getri_impl.  Outside query mode,
    when the argument check lets the call through and the allocator grants
    the six buffers, the routine returns what the getri template returns;
    the template is called on a batch of one, unshifted, with zero strides,
    the buffers in the order of the request and the planner's
    optimal-memory flag. *)
Theorem getri_impl_execution `{HostEnv} `{Planners} (T : elem_type)
    (h : _rocblas_handle) (n : Z) (A : U) (lda : Z) (ipiv info : ptr)
    (pivot : bool) (bufs : list ptr) :
  rocblas_is_device_memory_size_query h = false ->
  rocsolver_getri_argCheck h n lda A ipiv info pivot = rocblas_status_continue ->
  rocblas_device_malloc h
    (getri_size_list (rocsolver_getri_getMemorySize false false T n 1)) = Some bufs ->
  let s := rocsolver_getri_getMemorySize false false T n 1 in
  let buf := fun k => nth k bufs nullptr in
  let c := mk_getri_call false false T n A 0 lda 0 ipiv 0 0 info 1
             (buf 0%nat) (buf 1%nat) (buf 2%nat) (buf 3%nat) (buf 4%nat) (buf 5%nat)
             (ri_opt s) pivot in
  rocsolver_getri_impl T (Some h) n A lda ipiv info pivot
  = (rocsolver_getri_template h c,
     [ev_device_malloc (getri_size_list s) true; ev_device (op_getri c)]).
Proof.
  intros Hq Hc Hm s buf c. subst s buf c.
  unfold rocsolver_getri_impl. host_unfold. rewrite Hc. cbn. rewrite Hq. cbn.
  unfold getri_size_list in Hm. rewrite Hm. reflexivity.
Qed.

(** X7. The execution path of
    rocsolver_getri_outofplace_strided_batched_impl.  Outside query mode,
    when the argument check lets the call through and the allocator grants
    the four buffers, the routine returns what the template returns; the
    template is called with the caller's strides and batch count, zero
    shifts, the buffers in the order of the request and the planner's
    optimal-memory flag. *)
Theorem getri_outofplace_strided_batched_impl_execution `{HostEnv} `{Planners}
    (T : elem_type) (h : _rocblas_handle) (n : Z) (A : U) (lda strideA : Z)
    (ipiv : ptr) (strideP : Z) (C : U) (ldc strideC : Z) (info : ptr)
    (pivot : bool) (batch_count : Z) (bufs : list ptr) :
  rocblas_is_device_memory_size_query h = false ->
  rocsolver_getri_outofplace_argCheck h n lda ldc A C ipiv info pivot batch_count
  = rocblas_status_continue ->
  rocblas_device_malloc h
    (work_size_list (rocsolver_getri_outofplace_getMemorySize false true T n batch_count))
  = Some bufs ->
  let s := rocsolver_getri_outofplace_getMemorySize false true T n batch_count in
  let buf := fun k => nth k bufs nullptr in
  let c := mk_getri_outofplace_call false true T n A 0 lda strideA ipiv 0 strideP
             C 0 ldc strideC info batch_count
             (buf 0%nat) (buf 1%nat) (buf 2%nat) (buf 3%nat) (ws_opt s) pivot in
  rocsolver_getri_outofplace_strided_batched_impl T (Some h) n A lda strideA ipiv
    strideP C ldc strideC info pivot batch_count
  = (rocsolver_getri_outofplace_template h c,
     [ev_device_malloc (work_size_list s) true; ev_device (op_getri_outofplace c)]).
Proof.
  intros Hq Hc Hm s buf c. subst s buf c.
  unfold rocsolver_getri_outofplace_strided_batched_impl. host_unfold.
  rewrite Hc. cbn. rewrite Hq. cbn.
  unfold work_size_list in Hm. rewrite Hm. reflexivity.
Qed.

(** ** The further properties at concrete calls *)

(** getrf with lda < m, and getri with a null A. *)
Lemma argCheck_failure_passes_through_example :
  @rocsolver_getrf_impl example_env example_planners double (Some example_handle)
    4 4 (U_ptr 1000) 3 2000 5000 true
  = (rocblas_status_invalid_size, [])
  /\ @rocsolver_getri_impl example_env example_planners float (Some example_handle)
       4 (U_ptr nullptr) 4 2000 5000 true
     = (rocblas_status_invalid_pointer, []).
Proof.
  destruct (@argCheck_failure_passes_through example_env example_planners example_handle)
    as [Hrf [_ [Hri _]]].
  split.
  - apply (Hrf double 4 4 (U_ptr 1000) 3 2000 5000 true). discriminate.
  - apply (Hri float 4 (U_ptr nullptr) 4 2000 5000 true). discriminate.
Defined.

(** A query with lda < m: nothing is requested, nothing is issued. *)
Lemma size_query_never_allocates_example :
  requested_sizes
    (snd (@rocsolver_getrf_impl example_env example_planners double
            (Some example_query_handle) 4 4 (U_ptr 1000) 3 2000 5000 true)) = None
  /\ device_ops
       (snd (@rocsolver_getrf_impl example_env example_planners double
               (Some example_query_handle) 4 4 (U_ptr 1000) 3 2000 5000 true)) = [].
Proof.
  apply (proj1 (@size_query_never_allocates example_env example_planners
                  example_query_handle eq_refl)).
Defined.

(** getrf on a 4 by 4 matrix with 1 MiB of device memory. *)
Lemma device_work_only_after_granted_allocation_example :
  starts_with_granted_allocation
    (snd (@rocsolver_getrf_impl example_env example_planners double
            (Some example_handle) 4 4 (U_ptr 1000) 4 2000 5000 true))
  /\ reported_sizes
       (snd (@rocsolver_getrf_impl example_env example_planners double
               (Some example_handle) 4 4 (U_ptr 1000) 4 2000 5000 true)) = None
  /\ ~ allocation_failed
         (snd (@rocsolver_getrf_impl example_env example_planners double
                 (Some example_handle) 4 4 (U_ptr 1000) 4 2000 5000 true)).
Proof.
  apply (proj1 (@device_work_only_after_granted_allocation example_env example_planners)).
  discriminate.
Defined.

(** getrf on a 4 by 4 matrix: the request, the scalars, the factorization. *)
Lemma getrf_impl_execution_example :
  @rocsolver_getrf_impl example_env example_planners double (Some example_handle)
    4 4 (U_ptr 1000) 4 2000 5000 true
  = (rocblas_status_success,
     [ev_device_malloc [24; 64; 8; 0; 0; 8; 4; 16; 4] true;
      ev_device (op_init_scalars 65536);
      ev_device (op_getrf (mk_getrf_call false false double 4 4 (U_ptr 1000) 0 1 4 0
                             2000 0 0 5000 1 65536 65560 65624 65632 65632 65632
                             65640 65644 65660 true true))]).
Proof.
  exact (@getrf_impl_execution example_env example_planners double example_handle
           4 4 (U_ptr 1000) 4 2000 5000 true
           [65536; 65560; 65624; 65632; 65632; 65632; 65640; 65644; 65660]
           eq_refl eq_refl eq_refl).
Defined.

(** getrs on three 4 by 4 systems with two right-hand sides each. *)
Lemma getrs_strided_batched_impl_execution_example :
  @rocsolver_getrs_strided_batched_impl example_env example_planners double
    (Some example_handle) rocblas_operation_none 4 2 (U_ptr 1000) 4 16 2000 4
    (U_ptr 3000) 4 8 3
  = (rocblas_status_success,
     [ev_device_malloc [48; 192; 0; 0] true;
      ev_device (op_getrs (mk_getrs_call false true double rocblas_operation_none 4 2
                             (U_ptr 1000) 0 1 4 16 2000 4 (U_ptr 3000) 0 1 4 8 3
                             65536 65584 65776 65776 true true))]).
Proof.
  exact (@getrs_strided_batched_impl_execution example_env example_planners double
           example_handle rocblas_operation_none 4 2 (U_ptr 1000) 4 16 2000 4
           (U_ptr 3000) 4 8 3 [65536; 65584; 65776; 65776] eq_refl eq_refl eq_refl).
Defined.

(** getri on a 4 by 4 matrix. *)
Lemma getri_impl_execution_example :
  @rocsolver_getri_impl example_env example_planners double (Some example_handle)
    4 (U_ptr 1000) 4 2000 5000 true
  = (rocblas_status_success,
     [ev_device_malloc [32; 0; 0; 0; 128; 0] true;
      ev_device (op_getri (mk_getri_call false false double 4 (U_ptr 1000) 0 4 0
                             2000 0 0 5000 1 65536 65568 65568 65568 65568 65696
                             true true))]).
Proof.
  exact (@getri_impl_execution example_env example_planners double example_handle
           4 (U_ptr 1000) 4 2000 5000 true
           [65536; 65568; 65568; 65568; 65568; 65696] eq_refl eq_refl eq_refl).
Defined.

(** getri-outofplace on three 4 by 4 matrices. *)
Lemma getri_outofplace_strided_batched_impl_execution_example :
  @rocsolver_getri_outofplace_strided_batched_impl example_env example_planners double
    (Some example_handle) 4 (U_ptr 1000) 4 16 2000 4 (U_ptr 3000) 4 16 5000 true 3
  = (rocblas_status_success,
     [ev_device_malloc [96; 384; 0; 0] true;
      ev_device (op_getri_outofplace
                   (mk_getri_outofplace_call false true double 4 (U_ptr 1000) 0 4 16
                      2000 0 4 (U_ptr 3000) 0 4 16 5000 3
                      65536 65632 66016 66016 true true))]).
Proof.
  exact (@getri_outofplace_strided_batched_impl_execution example_env example_planners
           double example_handle 4 (U_ptr 1000) 4 16 2000 4 (U_ptr 3000) 4 16 5000 true 3
           [65536; 65632; 66016; 66016] eq_refl eq_refl eq_refl).
Defined.

(** strideC = 16 is handed on as it is. *)
Lemma getri_outofplace_strideC_narrowed_example :
  @rocsolver_getri_outofplace_strided_batched example_env example_planners double
    (Some example_handle) 4 (U_ptr 1000) 4 16 2000 4 (U_ptr 3000) 4 16 5000 3
  = @rocsolver_getri_outofplace_strided_batched_impl example_env example_planners double
      (Some example_handle) 4 (U_ptr 1000) 4 16 2000 4 (U_ptr 3000) 4 16 5000 true 3.
Proof.
  apply (@getri_outofplace_strideC_narrowed example_env example_planners). lia.
Defined.

(** n = 0 with two instances: only info is needed. *)
Lemma gesv_outofplace_argCheck_empty_example :
  rocsolver_gesv_outofplace_argCheck example_handle 0 3 1 1 1
    (U_ptr nullptr) (U_ptr nullptr) (U_ptr nullptr) nullptr 5000 2
  = rocblas_status_continue.
Proof.
  exact (proj2 (proj2 (gesv_outofplace_argCheck_empty example_handle 0 3 1 1 1
                         (U_ptr nullptr) (U_ptr nullptr) (U_ptr nullptr) nullptr 5000 2))
           eq_refl
           (conj (Z.le_refl 0) (conj (Zle_0_pos 3) (conj (Zle_0_pos 1) (conj (Zle_0_pos 1)
              (conj (Zle_0_pos 1) (Zle_0_pos 2))))))
           eq_refl).
Defined.

(** A call with a null X keeps its answer when the leading dimensions grow. *)
Lemma gesv_outofplace_argCheck_larger_ld_example :
  rocsolver_gesv_outofplace_argCheck example_handle 2 1 8 4 6
    (U_ptr 1000) (U_ptr 3000) (U_ptr nullptr) 2000 5000 1
  = rocsolver_gesv_outofplace_argCheck example_handle 2 1 2 2 2
      (U_ptr 1000) (U_ptr 3000) (U_ptr nullptr) 2000 5000 1.
Proof.
  apply gesv_outofplace_argCheck_larger_ld; [discriminate | lia | lia | lia].
Defined.

(** The getrs call of an accepted 2 by 2 solve. *)
Lemma gesv_outofplace_accepted_call_has_buffers_example :
  op_pointers_not_null
    (op_getrs (mk_getrs_call false true double rocblas_operation_none 2 1
                 (U_ptr 1000) 0 1 2 0 2000 0 (U_ptr 4000) 0 1 2 0 1
                 6100 6200 6300 6400 true true)).
Proof.
  apply (@gesv_outofplace_accepted_call_has_buffers example_config false true double
           example_handle 2 1 (U_ptr 1000) 0 2 0 2000 0 (U_ptr 3000) 0 2 0
           (U_ptr 4000) 0 2 0 5000 1 6000 6100 6200 6300 6400 6500 6600 6700 6800 true).
  - reflexivity.
  - reflexivity.
  - lia.
  - do 3 right. left. reflexivity.
Defined.

(** 300 instances with BS1 = 256: two blocks. *)
Lemma gesv_outofplace_template_launch_geometry_example :
  @launch_geometry_exact example_config
    (op_reset_info (mk_dim3 2 1 1) (mk_dim3 256 1 1) 5000 300 0).
Proof.
  apply (@gesv_outofplace_template_launch_geometry example_config false true double
           example_handle 0 1 (U_ptr 1000) 0 1 0 2000 0 (U_ptr 3000) 0 1 0
           (U_ptr 4000) 0 1 0 5000 300 0 0 0 0 0 0 0 0 0 true);
    [reflexivity | lia | lia | lia | left; reflexivity].
Defined.

(** A 2 by 2 solve on three instances. *)
Lemma gesv_outofplace_template_getrf_sees_reset_info_example :
  exists reset rest,
    snd (@rocsolver_gesv_outofplace_template example_config false true double
           example_handle 2 1 (U_ptr 1000) 0 2 0 2000 0 (U_ptr 3000) 0 2 0
           (U_ptr 4000) 0 2 0 5000 3 6000 6100 6200 6300 6400 6500 6600 6700 6800 true)
    = reset :: rest
    /\ forall mem,
         @run_stream example_kernels (reset :: rest) mem
         = @run_stream example_kernels rest (@exec_op example_kernels reset mem)
         /\ (forall b, 0 <= b < 3 -> @exec_op example_kernels reset mem (5000 + b) = 0)
         /\ (forall a, ~ in_array 5000 3 a -> @exec_op example_kernels reset mem a = mem a).
Proof.
  apply (@gesv_outofplace_template_getrf_sees_reset_info example_config example_kernels);
    [reflexivity | lia].
Defined.

(** The call issued by the 64-bit non-pivoting getrf. *)
Lemma getrf_entry_points_calls_example :
  single_getrf_call
    (mk_getrf_call false false double 4 4 (U_ptr 1000) 0 1 4 0
       nullptr 0 0 5000 1 65536 65560 65624 65632 65632 65632
       65640 65644 65644 true false)
    double 4 4 (U_ptr 1000) 4 nullptr 5000 false.
Proof.
  apply (proj1 (proj2 (proj2 (@getrf_entry_points_calls example_env example_planners
                                true double (Some example_handle) 4 4 (U_ptr 1000) 4
                                2000 5000 _)))).
  vm_compute. do 2 right. left. reflexivity.
Defined.

(** The call issued by the non-pivoting getri. *)
Lemma getri_entry_points_calls_example :
  single_getri_call
    (mk_getri_call false false double 4 (U_ptr 1000) 0 4 0
       nullptr 0 0 5000 1 65536 65568 65568 65568 65568 65696 true false)
    double 4 (U_ptr 1000) 4 nullptr 5000 false.
Proof.
  apply (proj1 (proj2 (@getri_entry_points_calls example_env example_planners
                         double (Some example_handle) 4 (U_ptr 1000) 4 0 2000
                         (U_ptr 3000) 4 0 5000 1))).
  vm_compute. right. left. reflexivity.
Defined.

(** X18. For n, nrhs and batch_count all non-zero, the sizes the
    gesv-outofplace planner reports for the roles other than the four work
    buffers (scalars, pivot-value, pivot-index, internal-pivot,
    internal-info) are those of getrf(n, n, pivot = true). *)
Theorem gesv_outofplace_getMemorySize_other_roles `{Planners}
    (BATCHED STRIDED : bool) (T : elem_type) (n nrhs batch_count : Z)
    (out : planner_out) (r : role) :
  n <> 0 -> nrhs <> 0 -> batch_count <> 0 ->
  is_work r = false ->
  size_of (rocsolver_gesv_outofplace_getMemorySize
             BATCHED STRIDED T n nrhs batch_count out) r
  = rf_size (rocsolver_getrf_getMemorySize BATCHED STRIDED T n n true batch_count None) r.
Proof.
  intros Hn Hr Hb Hw.
  rewrite (gesv_outofplace_getMemorySize_general _ _ _ _ _ _ _ r Hn Hr Hb).
  now rewrite Hw.
Qed.

(** The internal pivot array at the shape (4, 2, 3): 4 * 4 * 3 bytes. *)
Lemma gesv_outofplace_getMemorySize_other_roles_example :
  size_of (@rocsolver_gesv_outofplace_getMemorySize example_planners false true double
             4 2 3 (mk_out (fun _ => 7) false)) size_iipiv = 48.
Proof.
  rewrite (@gesv_outofplace_getMemorySize_other_roles example_planners);
    [reflexivity | lia | lia | lia | reflexivity].
Defined.

(** The getrf call of a 2 by 2 solve is covered for every role. *)
Lemma gesv_outofplace_template_covered_by_planner_example :
  Forall
    (fun role =>
       rf_size (@rocsolver_getrf_getMemorySize example_planners false true double
                  2 2 true 1 None) role
       <= size_of (@rocsolver_gesv_outofplace_getMemorySize example_planners false true
                     double 2 1 1 (mk_out (fun _ => 7) false)) role)
    all_roles.
Proof.
  apply Forall_forall. intros role _.
  apply (proj1 (proj2 (proj2 (proj2
           (@gesv_outofplace_template_covered_by_planner example_config example_planners
              false true double example_handle 2 1 (U_ptr 1000) 0 2 0 2000 0
              (U_ptr 3000) 0 2 0 (U_ptr 4000) 0 2 0 5000 1
              6000 6100 6200 6300 6400 6500 6600 6700 6800 true
              (mk_out (fun _ => 7) false)))))
           (mk_getrf_call false true double 2 2 (U_ptr 1000) 0 1 2 0 2000 0 0 5000 1
              6000 6100 6200 6300 6400 6500 6600 6700 6800 true true)).
  right. left. reflexivity.
Defined.
